(** * custom_agent_tutorial: the agent loop and the web-search tool

    A shallow embedding of [agent.py] (class [Agent]) and
    [tools/search.py] (class [WebSearcher]).

    - Python values are the inductive type [value]; a [str] is its
      sequence of code points.
    - A method is a computation in the monad [M]: it threads the process
      state ([os.environ] and a trace of what was called and sent) and
      ends by returning a value or raising an exception.  The state
      survives a raised exception, as it does in Python.
    - Everything outside the process is a parameter: [Lib] holds the
      library functions whose code is not in the repository
      ([json.loads], [str.format], [repr], BeautifulSoup's [get_text]),
      [World] holds the console, the configuration file and the network.
    - [print] is not modelled: console output plays no role in the
      control flow. *)

From Stdlib Require Import List ZArith NArith QArith Bool Lia String Ascii.
Import ListNotations.
Close Scope Q_scope.

Set Implicit Arguments.
Set Warnings "-register-all".

(* ================================================================== *)
(** * Strings *)
(* ================================================================== *)

Module Str.

Local Open Scope N_scope.

(** A Python [str] is a sequence of Unicode code points. *)
Definition str := list N.

(** The code points of an ASCII literal. *)
Definition lit (s : string) : str :=
  map N_of_ascii (list_ascii_of_string s).

Definition LF : N := 10.
Definition CR : N := 13.

Fixpoint eqb (a b : str) : bool :=
  match a, b with
  | [], [] => true
  | x :: a', y :: b' => N.eqb x y && eqb a' b'
  | _, _ => false
  end.

Fixpoint starts_with (p s : str) : bool :=
  match p, s with
  | [], _ => true
  | x :: p', y :: s' => N.eqb x y && starts_with p' s'
  | _ :: _, [] => false
  end.

(** [sub in s], Python's substring test. *)
Fixpoint contains (sub s : str) : bool :=
  starts_with sub s ||
  match s with
  | [] => false
  | _ :: s' => contains sub s'
  end.

(** [sep.join(parts)]. *)
Fixpoint join (sep : str) (parts : list str) : str :=
  match parts with
  | [] => []
  | [p] => p
  | p :: rest => p ++ sep ++ join sep rest
  end.

(** [str.isspace] on one code point (CPython's [_PyUnicode_IsWhitespace]). *)
Definition is_space (c : N) : bool :=
  ((9 <=? c) && (c <=? 13)) || ((28 <=? c) && (c <=? 32))
  || (c =? 133) || (c =? 160) || (c =? 5760)
  || ((8192 <=? c) && (c <=? 8202))
  || (c =? 8232) || (c =? 8233) || (c =? 8239) || (c =? 8287)
  || (c =? 12288).

(** A line boundary of [str.splitlines] (CPython's
    [_PyUnicode_IsLinebreak]). *)
Definition is_linebreak (c : N) : bool :=
  ((10 <=? c) && (c <=? 13)) || ((28 <=? c) && (c <=? 30))
  || (c =? 133) || (c =? 8232) || (c =? 8233).

Fixpoint lstrip (s : str) : str :=
  match s with
  | [] => []
  | c :: s' => if is_space c then lstrip s' else s
  end.

Definition rstrip (s : str) : str := rev (lstrip (rev s)).

(** [s.strip()]: leading and trailing whitespace removed. *)
Definition strip (s : str) : str := rstrip (lstrip s).

(** [s.splitlines()].  [cur] is the line read so far, reversed.  A CR
    directly followed by LF is one boundary; a boundary at the very end
    opens no further line. *)
Fixpoint splitlines_from (cur : str) (s : str) : list str :=
  match s with
  | [] => match cur with [] => [] | _ => [rev cur] end
  | c :: rest =>
      if is_linebreak c then
        rev cur ::
        match rest with
        | d :: rest' =>
            if (c =? CR) && (d =? LF) then splitlines_from [] rest'
            else splitlines_from [] rest
        | [] => splitlines_from [] rest
        end
      else splitlines_from (c :: cur) rest
  end.

Definition splitlines (s : str) : list str := splitlines_from [] s.

End Str.

Import Str.


(* ================================================================== *)
(** * Python values, exceptions, outcomes *)
(* ================================================================== *)

(** The values the program handles: what [json.loads] and
    [Response.json] build ([None], [bool], [int], [float], [str], [list],
    [dict]) and the dictionaries the tool builds itself.  A [dict] is the
    list of its items in insertion order.  A float stands for the
    rational it denotes: the program passes numbers on and never computes
    with them. *)
Inductive value :=
| VNone
| VBool (b : bool)
| VInt (z : Z)
| VFloat (q : Q)
| VStr (s : str)
| VList (l : list value)
| VDict (d : list (value * value)).

Definition bytes := list Byte.byte.

(** Exceptions, by the classes the [except] clauses tell apart.
    [HTTPError] is a subclass of [RequestException]; [RequestException]
    here stands for every other member of that class (timeouts,
    connection errors, invalid URLs, ...).  [msg] is [str(e)]. *)
Inductive exn :=
| HTTPError (msg : str)
| RequestException (msg : str)
| KeyError (msg : str)
| IndexError
| TypeError
| AttributeError
| OtherError (msg : str).

(** How a call ends. *)
Inductive outcome (A : Type) :=
| Return (a : A)
| Raise (e : exn).

Arguments Return {A} a.
Arguments Raise {A} e.

Definition obind {A B} (o : outcome A) (k : A -> outcome B) : outcome B :=
  match o with
  | Return a => k a
  | Raise e => Raise e
  end.

(** [for x in xs: ... f(x) ...] collecting the results; the first
    exception ends the loop. *)
Fixpoint omap {A B} (f : A -> outcome B) (xs : list A) : outcome (list B) :=
  match xs with
  | [] => Return []
  | x :: xs' =>
      obind (f x) (fun y => obind (omap f xs') (fun ys => Return (y :: ys)))
  end.

(* ================================================================== *)
(** * The process state and what lies outside the process *)
(* ================================================================== *)

(** The methods of the two classes. *)
Inductive func :=
| run_planning_agent_
| run_integration_agent_
| check_response_
| generate_searches_
| get_search_page_
| fetch_search_results_
| scrape_website_content_
| use_tool_.

Inductive method := GET | POST.

(** One call of [requests.get] / [requests.post].  [rq_data] is the
    object handed to [json.dumps] for the body; [rq_timeout] is the
    [timeout=] argument in seconds, [None] when the call passes none. *)
Record Request := {
  rq_method : method;
  rq_url : value;
  rq_headers : list (str * str);
  rq_data : option value;
  rq_timeout : option Z
}.

(** What [requests] hands back: [status_error] is the message of the
    [HTTPError] that [raise_for_status()] raises ([None] for a good
    status), [json_body] is how [.json()] ends, [content] is [.content]. *)
Record Response := {
  status_error : option str;
  json_body : outcome value;
  content : bytes
}.

(** The trace: which method was entered, which request it sent, which
    verdict [check_response] returned. *)
Inductive Event :=
| Called (f : func)
| Sent (f : func) (rq : Request)
| Verdict (b : bool).

Record State := {
  environ : list (str * str);   (* os.environ *)
  clock : nat;                  (* number of requests sent so far *)
  trace : list Event
}.

(** Library functions whose code is not part of the repository. *)
Record Lib := {
  (* repr(v) *)
  py_repr : value -> str;
  (* template.format(name=value, ...) *)
  str_format : str -> list (str * value) -> outcome str;
  (* json.loads(s) *)
  json_loads : str -> outcome value;
  (* BeautifulSoup(content, 'html.parser').get_text(separator='\n') *)
  get_text : bytes -> str;
  (* the exception, if any, with which the OS refuses os.environ[k] = v *)
  putenv_error : str -> str -> option exn
}.

(** The surroundings of one run. *)
Record World := {
  (* input(prompt) *)
  stdin : outcome str;
  (* yaml.safe_load(open(path)) *)
  yaml_file : str -> outcome value;
  (* the answer to the n-th request of the run *)
  http : nat -> Request -> outcome Response
}.

(* ================================================================== *)
(** * The monad of methods *)
(* ================================================================== *)

Definition M (A : Type) : Type := State -> State * outcome A.

Definition ret {A} (a : A) : M A := fun s => (s, Return a).

Definition raise {A} (e : exn) : M A := fun s => (s, Raise e).

Definition lift {A} (o : outcome A) : M A := fun s => (s, o).

Definition bind {A B} (m : M A) (k : A -> M B) : M B :=
  fun s =>
    match m s with
    | (s', Return a) => k a s'
    | (s', Raise e) => (s', Raise e)
    end.

(** [try: m  except ...: h]: [h e] is the body of the first clause that
    matches [e], [None] when no clause does. *)
Definition try_except {A} (m : M A) (h : exn -> option (M A)) : M A :=
  fun s =>
    match m s with
    | (s', Raise e) =>
        match h e with
        | Some k => k s'
        | None => (s', Raise e)
        end
    | r => r
    end.

Declare Scope monad_scope.
Delimit Scope monad_scope with monad.
Notation "x <- m ;; k" := (bind m (fun x => k))
  (at level 100, m at next level, right associativity) : monad_scope.
Notation "m ;;; k" := (bind m (fun _ => k))
  (at level 100, right associativity) : monad_scope.
Local Open Scope monad_scope.

Definition log (ev : Event) : M unit :=
  fun s => ({| environ := environ s; clock := clock s;
               trace := trace s ++ [ev] |}, Return tt).

Definition enter (f : func) : M unit := log (Called f).

(* ================================================================== *)
(** * Python's built-in operations *)
(* ================================================================== *)

(** [k == i] for a dictionary key [k] and an [int] [i]: numbers compare
    by value across [bool], [int] and [float]. *)
Definition key_eq_int (k : value) (i : Z) : bool :=
  match k with
  | VInt z => Z.eqb z i
  | VBool b => Z.eqb (if b then 1 else 0) i
  | VFloat q => Qeq_bool q (inject_Z i)
  | _ => false
  end.

Definition key_eq_str (k : value) (s : str) : bool :=
  match k with
  | VStr s' => Str.eqb s' s
  | _ => false
  end.

Fixpoint dict_find (p : value -> bool) (d : list (value * value)) : option value :=
  match d with
  | [] => None
  | (k, v) :: d' => if p k then Some v else dict_find p d'
  end.

(** [seq[i]] on a sequence [l]: negative indices count
    from the end. *)
Definition seq_index {A} (l : list A) (i : Z) : option A :=
  let n := Z.of_nat (List.length l) in
  if ((0 <=? i) && (i <? n))%Z then nth_error l (Z.to_nat i)
  else if ((- n <=? i) && (i <? 0))%Z then nth_error l (Z.to_nat (n + i))
  else None.

Section Builtins.

Variable lib : Lib.

(** [str(v)]: a [str] is itself, every other value here prints as its
    [repr]. *)
Definition py_str (v : value) : str :=
  match v with
  | VStr s => s
  | _ => py_repr lib v
  end.

(** [v[k]] for a [str] key [k]. *)
Definition getitem_key (v : value) (k : str) : outcome value :=
  match v with
  | VDict d =>
      match dict_find (fun k' => key_eq_str k' k) d with
      | Some x => Return x
      | None => Raise (KeyError (py_repr lib (VStr k)))
      end
  | _ => Raise TypeError
  end.

(** [v[i]] for an [int] [i]. *)
Definition getitem_int (v : value) (i : Z) : outcome value :=
  match v with
  | VList l =>
      match seq_index l i with
      | Some x => Return x
      | None => Raise IndexError
      end
  | VStr s =>
      match seq_index s i with
      | Some c => Return (VStr [c])
      | None => Raise IndexError
      end
  | VDict d =>
      match dict_find (fun k' => key_eq_int k' i) d with
      | Some x => Return x
      | None => Raise (KeyError (py_repr lib (VInt i)))
      end
  | _ => Raise TypeError
  end.

(** [k in v] for a [str] [k]: a key of a [dict], an element of a [list],
    a substring of a [str]; other values are not containers. *)
Definition contains_key (k : str) (v : value) : outcome bool :=
  match v with
  | VDict d => Return (existsb (fun kv => key_eq_str (fst kv) k) d)
  | VList l => Return (existsb (fun x => key_eq_str x k) l)
  | VStr s => Return (Str.contains k s)
  | _ => Raise TypeError
  end.

(** [for x in v]: the elements of a [list], the keys of a [dict], the
    characters of a [str]. *)
Definition iterate (v : value) : outcome (list value) :=
  match v with
  | VList l => Return l
  | VDict d => Return (map fst d)
  | VStr s => Return (map (fun c => VStr [c]) s)
  | _ => Raise TypeError
  end.

(** [v.get(k, default)]: only a [dict] has the method. *)
Definition dict_get (v : value) (k : str) (default : value) : outcome value :=
  match v with
  | VDict d =>
      match dict_find (fun k' => key_eq_str k' k) d with
      | Some x => Return x
      | None => Return default
      end
  | _ => Raise AttributeError
  end.

(** Whether [v] can be the key of a [dict]. *)
Definition hashable (v : value) : bool :=
  match v with
  | VList _ | VDict _ => false
  | _ => true
  end.

End Builtins.

Local Open Scope string_scope.
Local Open Scope list_scope.

(** Literals: a [str] value and a [dict] with [str] keys. *)
Definition vstr (s : string) : value := VStr (lit s).

Definition obj (items : list (string * value)) : value :=
  VDict (map (fun kv => (vstr (fst kv), snd kv)) items).

(** [os.environ[k] = v] on the mapping: an existing name keeps its place. *)
Fixpoint env_set (k v : str) (env : list (str * str)) : list (str * str) :=
  match env with
  | [] => [(k, v)]
  | (k', v') :: env' =>
      if Str.eqb k' k then (k, v) :: env' else (k', v') :: env_set k v env'
  end.

Fixpoint env_get (k : str) (env : list (str * str)) : option str :=
  match env with
  | [] => None
  | (k', v) :: env' => if Str.eqb k' k then Some v else env_get k env'
  end.

(** [for x in xs: body(x)]. *)
Fixpoint for_each {A} (body : A -> M unit) (xs : list A) : M unit :=
  match xs with
  | [] => ret tt
  | x :: xs' => body x ;;; for_each body xs'
  end.

(* ================================================================== *)
(** * tools/search.py *)
(* ================================================================== *)

Record WebSearcher := {
  ws_api_key : value;
  ws_url : str;
  ws_headers : list (str * str);
  ws_model : value;
  ws_verbose : value
}.

Section Program.

Variable lib : Lib.
Variable w : World.

(** [requests.get] / [requests.post]: the request goes on the trace and
    the world answers it. *)
Definition send (f : func) (rq : Request) : M Response :=
  fun s => ({| environ := environ s; clock := S (clock s);
               trace := trace s ++ [Sent f rq] |},
            http w (clock s) rq).

(** [response.raise_for_status()]. *)
Definition raise_for_status (response : Response) : M unit :=
  match status_error response with
  | Some msg => raise (HTTPError msg)
  | None => ret tt
  end.

(** [os.getenv(k)]. *)
Definition getenv (k : str) : M value :=
  fun s => (s, Return match env_get k (environ s) with
                      | Some v => VStr v
                      | None => VNone
                      end).

(** [os.environ[k]]. *)
Definition environ_getitem (k : str) : M str :=
  fun s => (s, match env_get k (environ s) with
               | Some v => Return v
               | None => Raise (KeyError (py_repr lib (VStr k)))
               end).

(** [os.environ[key] = value]: both must be [str], and the OS may refuse
    the name or the value. *)
Definition environ_setitem (key value : value) : M unit :=
  match key, value with
  | VStr k, VStr v =>
      match putenv_error lib k v with
      | Some e => raise e
      | None =>
          fun s => ({| environ := env_set k v (environ s); clock := clock s;
                       trace := trace s |}, Return tt)
      end
  | _, _ => raise TypeError
  end.

(** [config.items()]. *)
Definition items (config : value) : outcome (list (value * value)) :=
  match config with
  | VDict d => Return d
  | _ => Raise AttributeError
  end.

(** search.py:8 and agent.py:10, the same function twice. *)
Definition load_config (file_path : str) : M unit :=
  config <- lift (yaml_file w file_path) ;;
  kvs <- lift (items config) ;;
  for_each (fun kv => environ_setitem (fst kv) (snd kv)) kvs.

Definition completions_url : str :=
  lit "https://api.openai.com/v1/chat/completions".

Definition bearer_headers (api_key : value) : list (str * str) :=
  [ (lit "Content-Type", lit "application/json");
    (lit "Authorization", lit "Bearer " ++ py_str lib api_key) ].

(** [WebSearcher.__init__(self, model, verbose=False)]. *)
Definition WebSearcher_init (model verbose : value) : M WebSearcher :=
  load_config (lit "config.yaml") ;;;
  api_key <- getenv (lit "OPENAI_API_KEY") ;;
  ret {| ws_api_key := api_key;
         ws_url := completions_url;
         ws_headers := bearer_headers api_key;
         ws_model := model;
         ws_verbose := verbose |}.

(** [json.loads(v)]: the argument must be text. *)
Definition loads (v : value) : outcome value :=
  match v with
  | VStr s => json_loads lib s
  | _ => Raise TypeError
  end.

(** The lines every structured call ends with (search.py:124-126,
    178-180, agent.py:121-123):
<<
    tool_calls = response_dict['choices'][0]['message']['tool_calls'][0]
    arguments_json = json.loads(tool_calls['function']['arguments'])
    ... = arguments_json[field]
>> *)
Definition structured_field (response_dict : value) (field : str) : outcome value :=
  obind (getitem_key lib response_dict (lit "choices")) (fun choices =>
  obind (getitem_int lib choices 0) (fun choice =>
  obind (getitem_key lib choice (lit "message")) (fun message =>
  obind (getitem_key lib message (lit "tool_calls")) (fun calls =>
  obind (getitem_int lib calls 0) (fun tool_calls =>
  obind (getitem_key lib tool_calls (lit "function")) (fun function =>
  obind (getitem_key lib function (lit "arguments")) (fun arguments =>
  obind (loads arguments) (fun arguments_json =>
  getitem_key lib arguments_json field)))))))).

(** The [tools] list of a structured call: one function with one
    required string parameter. *)
Definition tools_schema (name description : string) (param : string)
    (param_description : str) : value :=
  VList [
    obj [ ("type", vstr "function");
          ("function", obj [
             ("name", vstr name);
             ("description", vstr description);
             ("parameters", obj [
                ("type", vstr "object");
                ("properties", obj [
                   (param, obj [ ("type", vstr "string");
                                 ("description", VStr param_description) ]) ]);
                ("required", VList [vstr param]) ]) ]) ] ].

(** The call [requests.post(self.url, headers=self.headers, data=json_data)]
    of [generate_searches], with [json_data = json.dumps(data)]. *)
Definition generate_searches_request (self : WebSearcher) (plan query : value)
    : Request :=
  let tools :=
    tools_schema "fetch_search_results"
      "Fetch search results based on the search query"
      "search_engine_queries"
      (lit "The most suitable search query for the plan") in
  let data := obj [
    ("model", ws_model self);
    ("messages", VList [ obj [
        ("role", vstr "user");
        ("content", VStr (lit "Query:" ++ py_str lib query ++ [LF; LF]
                          ++ lit " Plan:" ++ py_str lib plan)) ] ]);
    ("temperature", VInt 0);
    ("tools", tools);
    ("tool_choice", vstr "required") ] in
  {| rq_method := POST; rq_url := VStr (ws_url self);
     rq_headers := ws_headers self; rq_data := Some data;
     rq_timeout := None |}.

Definition generate_searches (self : WebSearcher) (plan query : value) : M value :=
  enter generate_searches_ ;;;
  response <- send generate_searches_ (generate_searches_request self plan query) ;;
  response_dict <- lift (json_body response) ;;
  search_queries <- lift (structured_field response_dict (lit "search_engine_queries")) ;;
  ret search_queries.

(** The [requests.post] call of [get_search_page]. *)
Definition get_search_page_request (self : WebSearcher)
    (search_results plan query : value) : Request :=
  let tools :=
    tools_schema "decide_best_pages"
      "Decide the best pages to visit based on the search results"
      "best_search_page"
      (lit "The URL link of best search page based on the Search Results, Plan and Query. Do not select pdf files.") in
  let data := obj [
    ("model", ws_model self);
    ("messages", VList [ obj [
        ("role", vstr "user");
        ("content", VStr (lit "Query:" ++ py_str lib query ++ [LF; LF]
                          ++ lit " Plan:" ++ py_str lib plan
                          ++ lit " " ++ [LF; LF] ++ lit " Search Results:"
                          ++ py_str lib search_results)) ] ]);
    ("temperature", VInt 0);
    ("tools", tools);
    ("tool_choice", vstr "required") ] in
  {| rq_method := POST; rq_url := VStr (ws_url self);
     rq_headers := ws_headers self; rq_data := Some data;
     rq_timeout := None |}.

Definition get_search_page (self : WebSearcher) (search_results plan query : value)
    : M value :=
  enter get_search_page_ ;;;
  response <- send get_search_page_
                (get_search_page_request self search_results plan query) ;;
  response_dict <- lift (json_body response) ;;
  search_queries <- lift (structured_field response_dict (lit "best_search_page")) ;;
  ret search_queries.

(** One block of [format_results]:
    [f"Title: {title}\nLink: {link}\nSnippet: {snippet}\n---"]. *)
Definition result_string (result : value) : outcome str :=
  obind (dict_get result (lit "title") (vstr "No Title")) (fun title =>
  obind (dict_get result (lit "link") (vstr "#")) (fun link =>
  obind (dict_get result (lit "snippet") (vstr "No snippet available.")) (fun snippet =>
  Return (lit "Title: " ++ py_str lib title ++ [LF]
          ++ lit "Link: " ++ py_str lib link ++ [LF]
          ++ lit "Snippet: " ++ py_str lib snippet ++ [LF] ++ lit "---")))).

Definition format_results (organic_results : value) : outcome str :=
  obind (iterate organic_results) (fun results =>
  obind (omap result_string results) (fun result_strings =>
  Return (join [LF] result_strings))).

Definition search_url : str := lit "https://google.serper.dev/search".

(** The call [requests.post(search_url, headers=headers, data=payload)]
    of [fetch_search_results]; [api_key] is
    [os.environ['SERPER_DEV_API_KEY']]. *)
Definition fetch_search_results_request (api_key : str) (search_queries : value)
    : Request :=
  let headers := [ (lit "Content-Type", lit "application/json");
                   (lit "X-API-KEY", api_key) ] in
  let payload := obj [ ("q", search_queries) ] in
  {| rq_method := POST; rq_url := VStr search_url;
     rq_headers := headers; rq_data := Some payload;
     rq_timeout := None |}.

Definition fetch_search_results (self : WebSearcher) (search_queries : value)
    : M str :=
  enter fetch_search_results_ ;;;
  api_key <- environ_getitem (lit "SERPER_DEV_API_KEY") ;;
  try_except
    (response <- send fetch_search_results_
                   (fetch_search_results_request api_key search_queries) ;;
     raise_for_status response ;;;
     results <- lift (json_body response) ;;
     has_organic <- lift (contains_key (lit "organic") results) ;;
     if (has_organic : bool) then
       organic <- lift (getitem_key lib results (lit "organic")) ;;
       lift (format_results organic)
     else
       ret (lit "No organic results found."))
    (fun e =>
       match e with
       | HTTPError http_err =>
           Some (ret (lit "HTTP error occurred: " ++ http_err))
       | RequestException req_err =>
           Some (ret (lit "Request exception occurred: " ++ req_err))
       | KeyError key_err =>
           Some (ret (lit "Key error in handling response: " ++ key_err))
       | _ => None
       end).

Definition scrape_headers : list (str * str) :=
  [ (lit "User-Agent", lit "Mozilla/5.0 (Windows NT 10.0; Win64; x64) AppleWebKit/537.36 (KHTML, like Gecko) Chrome/96.0.4664.110 Safari/537.36");
    (lit "Accept", lit "text/html,application/xhtml+xml,application/xml;q=0.9,image/avif,image/webp,image/apng,*/*;q=0.8,application/signed-exchange;v=b3;q=0.9");
    (lit "Accept-Language", lit "en-US,en;q=0.9");
    (lit "Referer", lit "https://www.google.com/");
    (lit "Connection", lit "keep-alive");
    (lit "Upgrade-Insecure-Requests", lit "1");
    (lit "Accept-Encoding", lit "gzip, deflate, br") ].

Definition nonempty (s : str) : bool :=
  match s with [] => false | _ => true end.

(** search.py:290,
    ['\n'.join([line.strip() for line in text.splitlines() if line.strip()])]. *)
Definition clean_lines (text : str) : list str :=
  map strip (filter (fun line => nonempty (strip line)) (splitlines text)).

Definition clean_text (text : str) : str := join [LF] (clean_lines text).

(** [{key: text}]: a key that cannot be hashed raises [TypeError]. *)
Definition singleton_dict (key : value) (text : str) : M value :=
  if hashable key then ret (VDict [(key, VStr text)]) else raise TypeError.

(** The call [requests.get(website_url, headers=headers, timeout=15)]. *)
Definition scrape_website_content_request (website_url : value) : Request :=
  {| rq_method := GET; rq_url := website_url;
     rq_headers := scrape_headers; rq_data := None;
     rq_timeout := Some 15%Z |}.

Definition scrape_website_content (self : WebSearcher) (website_url : value)
    : M value :=
  enter scrape_website_content_ ;;;
  try_except
    (response <- send scrape_website_content_
                   (scrape_website_content_request website_url) ;;
     raise_for_status response ;;;
     let text := get_text lib (content response) in
     singleton_dict website_url (clean_text text))
    (fun e =>
       match e with
       | HTTPError msg | RequestException msg =>
           Some (singleton_dict website_url
                   (lit "Failed to retrieve content due to an error: " ++ msg))
       | _ => None
       end).

Definition use_tool (self : WebSearcher) (plan query : value) : M value :=
  enter use_tool_ ;;;
  search <- WebSearcher_init (ws_model self) (VBool false) ;;
  search_queries <- generate_searches search plan query ;;
  search_results <- fetch_search_results search search_queries ;;
  best_page <- get_search_page search (VStr search_results) plan query ;;
  results_dict <- scrape_website_content search best_page ;;
  ret results_dict.

(* ================================================================== *)
(** * agent.py *)
(* ================================================================== *)

Record Agent := {
  api_key : value;
  url : str;
  headers : list (str * str);
  temperature : value;
  max_tokens : value;
  tool_specs : value;
  planning_agent_prompt : value;
  integration_agent_prompt : value;
  model : value;
  verbose : value
}.

(** [Agent.__init__].  The tool class is [WebSearcher], the one the
    script passes; [tool_doc] is its [__doc__]. *)
Definition Agent_init (model tool_doc temperature max_tokens
    planning_agent_prompt integration_agent_prompt verbose : value) : M Agent :=
  load_config (lit "config.yaml") ;;;
  api_key <- getenv (lit "OPENAI_API_KEY") ;;
  ret {| api_key := api_key;
         url := completions_url;
         headers := bearer_headers api_key;
         temperature := temperature;
         max_tokens := max_tokens;
         tool_specs := tool_doc;
         planning_agent_prompt := planning_agent_prompt;
         integration_agent_prompt := integration_agent_prompt;
         model := model;
         verbose := verbose |}.

(** [template.format(name=value, ...)]: of the values here only a [str]
    has the method. *)
Definition format (template : value) (kwargs : list (string * value)) : outcome str :=
  match template with
  | VStr t => str_format lib t (map (fun kv => (lit (fst kv), snd kv)) kwargs)
  | _ => Raise AttributeError
  end.

(** [response_dict['choices'][0]['message']['content']]. *)
Definition message_content (response_dict : value) : outcome value :=
  obind (getitem_key lib response_dict (lit "choices")) (fun choices =>
  obind (getitem_int lib choices 0) (fun choice =>
  obind (getitem_key lib choice (lit "message")) (fun message =>
  getitem_key lib message (lit "content")))).

(** The call
    [requests.post(self.url, headers=self.headers, data=json_data, timeout=180)]
    of the two free-text methods. *)
Definition free_text_request (self : Agent) (query : value) (system_prompt : str)
    : Request :=
  let data := obj [
    ("model", model self);
    ("messages", VList [
        obj [ ("role", vstr "user"); ("content", query) ];
        obj [ ("role", vstr "system"); ("content", VStr system_prompt) ] ]);
    ("temperature", temperature self);
    ("max_tokens", max_tokens self) ] in
  {| rq_method := POST; rq_url := VStr (url self);
     rq_headers := headers self; rq_data := Some data;
     rq_timeout := Some 180%Z |}.

Definition run_planning_agent (self : Agent) (query plan outputs feedback : value)
    : M value :=
  enter run_planning_agent_ ;;;
  system_prompt <- lift (format (planning_agent_prompt self)
                           [ ("outputs", outputs); ("plan", plan);
                             ("feedback", feedback);
                             ("tool_specs", tool_specs self) ]) ;;
  response <- send run_planning_agent_ (free_text_request self query system_prompt) ;;
  response_dict <- lift (json_body response) ;;
  content <- lift (message_content response_dict) ;;
  ret content.

Definition run_integration_agent (self : Agent) (query plan outputs : value)
    : M value :=
  enter run_integration_agent_ ;;;
  system_prompt <- lift (format (integration_agent_prompt self)
                           [ ("outputs", outputs); ("plan", plan) ]) ;;
  response <- send run_integration_agent_ (free_text_request self query system_prompt) ;;
  response_dict <- lift (json_body response) ;;
  content <- lift (message_content response_dict) ;;
  ret content.

(** The description of [meets_requirements], a triple-quoted literal
    whose continuation lines carry their 32 columns of indentation. *)
Definition meets_requirements_description : str :=
  let indent := repeat 32%N 32 in
  lit "Check if the response meets the requirements of the query based on the following:" ++ [LF]
  ++ indent ++ lit "1. The response should be relevant to the query." ++ [LF]
  ++ indent ++ lit "2. The response should be coherent and well-structured with citations." ++ [LF]
  ++ indent ++ lit "3. The response should be comprehensive and address the query in its entirety." ++ [LF]
  ++ indent ++ lit "Return 'yes' if the response meets the requirements and 'no' otherwise." ++ [LF]
  ++ indent.

(** [response == 'yes']. *)
Definition is_yes (response : value) : bool := key_eq_str response (lit "yes").

(** The [requests.post] call of [check_response]. *)
Definition check_response_request (self : Agent) (response query : value)
    : Request :=
  let tools :=
    tools_schema "respose_checker"
      "Checck if the response meets the requirements"
      "meets_requirements"
      meets_requirements_description in
  let data := obj [
    ("model", model self);
    ("messages", VList [ obj [
        ("role", vstr "user");
        ("content", VStr (lit "Response: " ++ py_str lib response ++ lit " "
                          ++ [LF] ++ lit " Query: " ++ py_str lib query)) ] ]);
    ("temperature", VInt 0);
    ("tools", tools);
    ("tool_choice", vstr "required") ] in
  {| rq_method := POST; rq_url := VStr (url self);
     rq_headers := headers self; rq_data := Some data;
     rq_timeout := Some 180%Z |}.

Definition check_response (self : Agent) (response query : value) : M bool :=
  enter check_response_ ;;;
  response <- send check_response_ (check_response_request self response query) ;;
  response_dict <- lift (json_body response) ;;
  response <- lift (structured_field response_dict (lit "meets_requirements")) ;;
  let verdict := if is_yes response then true else false in
  log (Verdict verdict) ;;;
  ret verdict.

(** The local variables of [execute]. *)
Record Locals := {
  meets_requirements : bool;
  plan : value;
  outputs : value;
  response : value;
  iterations : Z
}.

(** [while not meets_requirements and iterations < 5: ...].  Each round
    of the loop uses one unit of [fuel]; the result is [None] when the
    fuel is used up with the loop still running (which belongs to the
    model only), else the local variables on leaving the loop. *)
Fixpoint execute_loop (fuel : nat) (self : Agent) (tool : WebSearcher)
    (query : value) (l : Locals) : M (option Locals) :=
  if negb (meets_requirements l) && (iterations l <? 5)%Z then
    match fuel with
    | O => ret None
    | S fuel' =>
        let iterations := (iterations l + 1)%Z in
        plan <- run_planning_agent self query (plan l) (outputs l) (response l) ;;
        outputs <- use_tool tool plan query ;;
        response <- run_integration_agent self query plan outputs ;;
        meets_requirements <- check_response self response query ;;
        execute_loop fuel' self tool query
          {| meets_requirements := meets_requirements; plan := plan;
             outputs := outputs; response := response;
             iterations := iterations |}
    end
  else ret (Some l).

(** [Agent.execute(self, iterations=5)].  The method returns nothing and
    prints [response]; the model returns the local variables as they are
    when the loop is left. *)
Definition execute (fuel : nat) (self : Agent) (iterations : value)
    : M (option Locals) :=
  query <- lift (stdin w) ;;
  tool <- WebSearcher_init (model self) (verbose self) ;;
  let meets_requirements := false in
  let plan := VNone in
  let outputs := VNone in
  let response := VNone in
  let iterations := 0%Z in
  execute_loop fuel self tool (VStr query)
    {| meets_requirements := meets_requirements; plan := plan;
       outputs := outputs; response := response; iterations := iterations |}.

End Program.

(* ================================================================== *)
(** * Concrete surroundings, for running the model *)
(* ================================================================== *)

Module Demo.

Definition QUOTE : N := 34.

(** The text up to the next double quote, and the text after it. *)
Fixpoint until_quote (s : str) : option (str * str) :=
  match s with
  | [] => None
  | c :: s' =>
      if N.eqb c QUOTE then Some ([], s')
      else match until_quote s' with
           | Some (a, b) => Some (c :: a, b)
           | None => None
           end
  end.

(** [json.loads] on the documents the examples use: an object with one
    member whose value is a string without escapes, written with one
    space after the colon. *)
Definition loads_flat (s : str) : outcome value :=
  match s with
  | 123%N :: 34%N :: s1 =>
      match until_quote s1 with
      | Some (k, 58%N :: 32%N :: 34%N :: s2) =>
          match until_quote s2 with
          | Some (v, [125%N]) => Return (VDict [(VStr k, VStr v)])
          | _ => Raise (OtherError (lit "JSONDecodeError"))
          end
      | _ => Raise (OtherError (lit "JSONDecodeError"))
      end
  | _ => Raise (OtherError (lit "JSONDecodeError"))
  end.

(** The one-member document [{"k": "v"}]. *)
Definition flat (k v : string) : str :=
  [123%N; QUOTE] ++ lit k ++ [QUOTE; 58%N; 32%N; QUOTE] ++ lit v ++ [QUOTE; 125%N].

(** [repr] on [None], the booleans and strings that need no escape; the
    examples print no other value. *)
Definition repr_plain (v : value) : str :=
  match v with
  | VNone => lit "None"
  | VBool true => lit "True"
  | VBool false => lit "False"
  | VStr s => [39%N] ++ s ++ [39%N]
  | _ => lit "<object>"
  end.

(** The library as the examples need it: templates without replacement
    fields, documents without markup (one byte per character). *)
Definition lib : Lib := {|
  py_repr := repr_plain;
  str_format := fun template _ => Return template;
  json_loads := loads_flat;
  get_text := map Byte.to_N;
  putenv_error := fun _ _ => None
|}.

Definition body (s : string) : bytes := map byte_of_ascii (list_ascii_of_string s).

(** A completion reply that carries both a text and a tool call. *)
Definition completion (text : string) (arguments : str) : value :=
  obj [ ("choices", VList [
    obj [ ("message", obj [
      ("content", vstr text);
      ("tool_calls", VList [
         obj [ ("function", obj [ ("arguments", VStr arguments) ]) ] ]) ]) ] ]) ].

Definition ok_json (v : value) : outcome Response :=
  Return {| status_error := None; json_body := Return v; content := [] |}.

Definition config : value :=
  obj [ ("OPENAI_API_KEY", vstr "sk-test"); ("SERPER_DEV_API_KEY", vstr "serper-test") ].

(** A world in which every call succeeds.  A round of the loop sends
    seven requests; [verdict i] is the checker's answer in round [i],
    [page] the document the best page serves. *)
Definition world (verdict : nat -> string) (page : bytes) : World := {|
  stdin := Return (lit "What is the boiling point of water at sea level?");
  yaml_file := fun _ => Return config;
  http := fun n rq =>
    match Nat.modulo n 7 with
    | 0 => ok_json (completion "look it up" [])
    | 1 => ok_json (completion "" (flat "search_engine_queries" "boiling point of water"))
    | 2 => ok_json (obj [ ("organic", VList [
             obj [ ("title", vstr "Boiling point");
                   ("link", vstr "https://example.com/boiling");
                   ("snippet", vstr "100 C") ] ]) ])
    | 3 => ok_json (completion "" (flat "best_search_page" "https://example.com/boiling"))
    | 4 => Return {| status_error := None;
                     json_body := Raise (OtherError (lit "JSONDecodeError"));
                     content := page |}
    | 5 => ok_json (completion "Water boils at 100 C." [])
    | _ => ok_json (completion "" (flat "meets_requirements" (verdict (Nat.div n 7))))
    end
|}.

Definition agent : Agent := {|
  api_key := vstr "sk-test";
  url := completions_url;
  headers := bearer_headers lib (vstr "sk-test");
  temperature := VFloat (7 # 10);
  max_tokens := VInt 1000;
  tool_specs := vstr "A class that encapsulates methods for searching.";
  planning_agent_prompt := vstr "Plan the next step.";
  integration_agent_prompt := vstr "Write the answer.";
  model := vstr "gpt-3.5-turbo";
  verbose := VBool true
|}.

Definition start : State := {| environ := []; clock := 0; trace := [] |}.

End Demo.

(* ================================================================== *)
(** * The vocabulary of the properties *)
(* ================================================================== *)

(** ** Text *)

Definition all_space (s : str) : Prop := Forall (fun c => is_space c = true) s.

(** Neither the first nor the last character is whitespace. *)
Definition trimmed (s : str) : Prop :=
  (forall c s', s = c :: s' -> is_space c = false) /\
  (forall c s', s = s' ++ [c] -> is_space c = false).

Definition no_break (s : str) : Prop := Forall (fun c => is_linebreak c = false) s.

(** A line of whitespace only. *)
Definition blank (line : str) : bool := forallb is_space line.



(** What a list of lines takes up: the characters of each line and one
    more for its boundary. *)
Definition weight (ls : list str) : nat :=
  list_sum (map (fun l => S (List.length l)) ls).

(** ** Traces *)

(** The three methods of [Agent] that the loop calls. *)
Definition agent_func (f : func) : bool :=
  match f with
  | run_planning_agent_ | run_integration_agent_ | check_response_ => true
  | _ => false
  end.

Definition func_eqb (f g : func) : bool :=
  match f, g with
  | run_planning_agent_, run_planning_agent_
  | run_integration_agent_, run_integration_agent_
  | check_response_, check_response_
  | generate_searches_, generate_searches_
  | get_search_page_, get_search_page_
  | fetch_search_results_, fetch_search_results_
  | scrape_website_content_, scrape_website_content_
  | use_tool_, use_tool_ => true
  | _, _ => false
  end.

(** How often [f] was entered. *)
Fixpoint calls (f : func) (evs : list Event) : nat :=
  match evs with
  | [] => 0
  | Called g :: evs' => (if func_eqb f g then 1 else 0) + calls f evs'
  | _ :: evs' => calls f evs'
  end.

(** The verdicts [check_response] returned, in order. *)
Fixpoint verdicts (evs : list Event) : list bool :=
  match evs with
  | [] => []
  | Verdict b :: evs' => b :: verdicts evs'
  | _ :: evs' => verdicts evs'
  end.

(** The ["temperature"] entry of the request body. *)
Definition data_temperature (rq : Request) : option value :=
  match rq_data rq with
  | Some (VDict d) => dict_find (fun k => key_eq_str k (lit "temperature")) d
  | _ => None
  end.

(** What the search tool puts on the trace. *)
Inductive tool_event : Event -> Prop :=
| tool_called f :
    agent_func f = false -> tool_event (Called f)
| tool_generate rq :
    rq_timeout rq = None -> data_temperature rq = Some (VInt 0) ->
    tool_event (Sent generate_searches_ rq)
| tool_page rq :
    rq_timeout rq = None -> data_temperature rq = Some (VInt 0) ->
    tool_event (Sent get_search_page_ rq)
| tool_fetch rq :
    rq_timeout rq = None -> data_temperature rq = None ->
    tool_event (Sent fetch_search_results_ rq)
| tool_scrape rq :
    rq_timeout rq = Some 15%Z -> data_temperature rq = None ->
    tool_event (Sent scrape_website_content_ rq).

(** What a run of the agent [self] puts on the trace. *)
Inductive agent_event (self : Agent) : Event -> Prop :=
| agent_called f :
    agent_func f = true -> agent_event self (Called f)
| agent_verdict b : agent_event self (Verdict b)
| agent_tool ev : tool_event ev -> agent_event self ev
| agent_planning rq :
    rq_timeout rq = Some 180%Z ->
    data_temperature rq = Some (temperature self) ->
    agent_event self (Sent run_planning_agent_ rq)
| agent_integration rq :
    rq_timeout rq = Some 180%Z ->
    data_temperature rq = Some (temperature self) ->
    agent_event self (Sent run_integration_agent_ rq)
| agent_check rq :
    rq_timeout rq = Some 180%Z ->
    data_temperature rq = Some (VInt 0) ->
    agent_event self (Sent check_response_ rq).

(** [m] only appends to the trace, and only events in [Q]. *)
Definition emits (Q : Event -> Prop) {A} (m : M A) : Prop :=
  forall s s' o, m s = (s', o) ->
  exists evs, trace s' = trace s ++ evs /\ Forall Q evs.

(** [m] moreover leaves the counts [t a] when it returns [a]: the calls
    of the three agent methods and the verdicts. *)
Definition footprint (Q : Event -> Prop) {A} (m : M A)
    (t : A -> nat * nat * nat * list bool) : Prop :=
  forall s s' o, m s = (s', o) ->
  exists evs, trace s' = trace s ++ evs /\ Forall Q evs /\
    forall a, o = Return a ->
      (calls run_planning_agent_ evs, calls run_integration_agent_ evs,
       calls check_response_ evs, verdicts evs) = t a.

(** What is known when the loop is left ([Some l']), and what when the
    fuel ran out first ([None]). *)
Definition loop_post (fuel : nat) (l : Locals) (evs : list Event)
    (r : option Locals) : Prop :=
  match r with
  | Some l' =>
      calls run_planning_agent_ evs = calls check_response_ evs /\
      calls run_integration_agent_ evs = calls check_response_ evs /\
      iterations l' = (iterations l + Z.of_nat (calls check_response_ evs))%Z /\
      (meets_requirements l' = true \/ (5 <= iterations l')%Z) /\
      ((iterations l <= 5)%Z -> (iterations l' <= 5)%Z) /\
      (meets_requirements l' = true ->
       meets_requirements l = true \/ In true (verdicts evs))
  | None => (Z.of_nat fuel < 5 - iterations l)%Z
  end.

(** The five methods that send a completion request. *)
Definition completion_func (f : func) : bool :=
  match f with
  | run_planning_agent_ | run_integration_agent_ | check_response_
  | generate_searches_ | get_search_page_ => true
  | _ => false
  end.

Definition timeout_is (t : Z) (rq : Request) : bool :=
  match rq_timeout rq with
  | Some t' => Z.eqb t' t
  | None => false
  end.

(** Every completion request on the trace has a 180-second timeout and
    every page fetch a 15-second one. *)
Definition timeouts_as_claimed (evs : list Event) : bool :=
  forallb (fun ev =>
    match ev with
    | Sent f rq =>
        if completion_func f then timeout_is 180 rq
        else match f with
             | scrape_website_content_ => timeout_is 15 rq
             | _ => true
             end
    | _ => true
    end) evs.

(** [m] sends at most [n] requests, and exactly [n] when it returns. *)
Definition ticks (n : nat) {A} (m : M A) : Prop :=
  forall s s' o, m s = (s', o) ->
    clock s <= clock s' <= clock s + n /\
    forall a, o = Return a -> clock s' = clock s + n.

(** The state after a method was entered and has sent its request. *)
Definition after_request (s : State) (f : func) (rq : Request) : State :=
  {| environ := environ s; clock := S (clock s);
     trace := trace s ++ [Called f; Sent f rq] |}.

(** ** The environment *)

(** [os.environ] after [os.environ[k] = v] for each of the pairs, in
    order. *)
Definition set_pairs (pairs : list (str * str)) (env : list (str * str))
    : list (str * str) :=
  fold_left (fun env kv => env_set (fst kv) (snd kv) env) pairs env.

(** The items of a configuration whose keys and values are all text. *)
Definition text_items (pairs : list (str * str)) : list (value * value) :=
  map (fun kv => (VStr (fst kv), VStr (snd kv))) pairs.

(** Both are [str]. *)
Definition both_text (key value : value) : bool :=
  match key, value with
  | VStr _, VStr _ => true
  | _, _ => false
  end.

(** ** Replies *)

(** The [dict] with the items [d] has [v] under the key [k]. *)
Definition has_key (d : list (value * value)) (k : string) (v : value) : Prop :=
  dict_find (fun k' => key_eq_str k' (lit k)) d = Some v.

(** The [dict] with the items [d] has no key [k]. *)
Definition lacks_key (d : list (value * value)) (k : string) : Prop :=
  dict_find (fun k' => key_eq_str k' (lit k)) d = None.

Definition is_str (v : value) : bool :=
  match v with
  | VStr _ => true
  | _ => false
  end.

Definition is_dict (v : value) : bool :=
  match v with
  | VDict _ => true
  | _ => false
  end.

(** ** Calls of [requests] *)

(** The exceptions of [requests]: [e] is an instance of
    [requests.exceptions.RequestException]; the result is [str(e)]. *)
Definition requests_exception (e : exn) : option str :=
  match e with
  | HTTPError msg | RequestException msg => Some msg
  | _ => None
  end.




(** The provider answers with the decoded reply [results]. *)
Definition provider_replies (o : outcome Response) (results : value) : Prop :=
  exists r, o = Return r /\ status_error r = None /\ json_body r = Return results.

(** The answer of the provider to the request of [fetch_search_results],
    sent with the key [key] from the state [s]. *)
Definition provider_answer (w : World) (search_queries : value) (s : State)
    (key : str) : outcome Response :=
  http w (clock s) (fetch_search_results_request key search_queries).

(** ** Worlds and states of the examples *)

(** A world in which the checker says no in every round. *)
Definition never_satisfied : World := Demo.world (fun _ => "no") (Demo.body "Water boils at 100 C at sea level.").

(** A world in which the checker says yes in the first round. *)
Definition satisfied_at_once : World := Demo.world (fun _ => "yes") (Demo.body "Water boils at 100 C at sea level.").

Definition searcher : WebSearcher := {|
  ws_api_key := vstr "sk-test";
  ws_url := completions_url;
  ws_headers := bearer_headers Demo.lib (vstr "sk-test");
  ws_model := vstr "gpt-3.5-turbo";
  ws_verbose := VBool false
|}.

(** A state in which the next request is the [n]-th of the run. *)
Definition at_request (n : nat) : State :=
  {| environ := [ (lit "OPENAI_API_KEY", lit "sk-test");
                  (lit "SERPER_DEV_API_KEY", lit "serper-test") ];
     clock := n; trace := [] |}.

(** A world in which the page fetch times out. *)
Definition page_times_out : World := {|
  stdin := stdin never_satisfied;
  yaml_file := yaml_file never_satisfied;
  http := fun n rq =>
    match rq_method rq with
    | GET => Raise (RequestException (lit "HTTPSConnectionPool: Read timed out."))
    | POST => http never_satisfied n rq
    end
|}.

(** A world in which the search provider cannot be reached. *)
Definition provider_times_out : World := {|
  stdin := stdin never_satisfied;
  yaml_file := yaml_file never_satisfied;
  http := fun n rq =>
    if key_eq_str (rq_url rq) search_url
    then Raise (RequestException (lit "Read timed out."))
    else http never_satisfied n rq
|}.

(** A world in which the provider answers every search with [reply]. *)
Definition provider_says (reply : value) : World := {|
  stdin := stdin never_satisfied;
  yaml_file := yaml_file never_satisfied;
  http := fun n rq =>
    if key_eq_str (rq_url rq) search_url
    then Demo.ok_json reply
    else http never_satisfied n rq
|}.

(** A world whose configuration file gives a number for the second
    key. *)
Definition config_with_number : World := {|
  stdin := stdin never_satisfied;
  yaml_file := fun _ =>
    Return (VDict (text_items [(lit "OPENAI_API_KEY", lit "sk-test")]
                   ++ (vstr "SERPER_DEV_API_KEY", VInt 12345)
                   :: text_items [(lit "MODEL", lit "gpt-4")]));
  http := http never_satisfied
|}.

(** A world in which the completion endpoint cannot be reached. *)
Definition completions_down : World := {|
  stdin := stdin never_satisfied;
  yaml_file := yaml_file never_satisfied;
  http := fun n rq =>
    if key_eq_str (rq_url rq) completions_url
    then Raise (RequestException (lit "Connection refused."))
    else http never_satisfied n rq
|}.

(** The agent as [Agent(model, tool)] builds it: both prompts [None]. *)
Definition agent_without_prompts : Agent := {|
  api_key := vstr "sk-test";
  url := completions_url;
  headers := bearer_headers Demo.lib (vstr "sk-test");
  temperature := VInt 0;
  max_tokens := VInt 1000;
  tool_specs := vstr "A class that encapsulates methods for searching.";
  planning_agent_prompt := VNone;
  integration_agent_prompt := VNone;
  model := vstr "gpt-3.5-turbo";
  verbose := VBool false
|}.

(** A page of four lines, two of them blank. *)
Definition sample_page : bytes :=
  Demo.body "  Boiling point" ++ [Byte.x0a; Byte.x0a]
  ++ Demo.body "   Water boils   at 100 C.  " ++ [Byte.x0a] ++ Demo.body " ".

(* ================================================================== *)
(** * Facts about strings *)
(* ================================================================== *)

Module StrFacts.

Lemma eqb_eq (a b : str) : Str.eqb a b = true <-> a = b.
Proof.
  revert b. induction a as [|x a IH]; intros [|y b]; simpl; split;
    try discriminate; try reflexivity.
  - intros H. apply andb_true_iff in H as [Hx Hab].
    apply N.eqb_eq in Hx. apply IH in Hab. congruence.
  - intros H. injection H as -> ->.
    rewrite N.eqb_refl. simpl. apply IH. reflexivity.
Qed.

Lemma eqb_refl (a : str) : Str.eqb a a = true.
Proof. apply eqb_eq. reflexivity. Qed.

Lemma starts_with_app (p s t : str) :
  starts_with p s = true -> starts_with p (s ++ t) = true.
Proof.
  revert s. induction p as [|x p IH]; intros [|y s]; simpl; auto.
  - discriminate.
  - intros H. apply andb_true_iff in H as [Hx Hp].
    rewrite Hx. simpl. auto.
Qed.


(** ** [strip] *)

Lemma lstrip_split (s : str) :
  exists a, s = a ++ lstrip s /\ all_space a.
Proof.
  induction s as [|c s (a & Ha & Hsp)]; simpl.
  - exists []. split; [reflexivity | constructor].
  - destruct (is_space c) eqn:E.
    + exists (c :: a). split; [simpl; congruence | constructor; assumption].
    + exists []. split; [reflexivity | constructor].
Qed.

Lemma lstrip_head (s : str) c s' : lstrip s = c :: s' -> is_space c = false.
Proof.
  induction s as [|d s IH]; simpl; [discriminate|].
  destruct (is_space d) eqn:E; [assumption|].
  intros H. injection H as -> _. assumption.
Qed.

Lemma rstrip_split (s : str) :
  exists b, s = rstrip s ++ b /\ all_space b.
Proof.
  unfold rstrip. destruct (lstrip_split (rev s)) as (a & Ha & Hsp).
  exists (rev a). split.
  - rewrite <- (rev_involutive s), Ha at 1. apply rev_app_distr.
  - unfold all_space in *. apply Forall_rev. assumption.
Qed.

Lemma rstrip_last (s : str) c s' : rstrip s = s' ++ [c] -> is_space c = false.
Proof.
  unfold rstrip. intros H.
  apply (f_equal (@rev N)) in H. rewrite rev_involutive, rev_app_distr in H.
  simpl in H. eapply lstrip_head. eassumption.
Qed.

(** [strip s] is [s] without a whitespace prefix and a whitespace suffix,
    and what is left neither starts nor ends with whitespace. *)
Lemma strip_split (s : str) :
  exists a b, s = a ++ strip s ++ b /\ all_space a /\ all_space b.
Proof.
  unfold strip. destruct (lstrip_split s) as (a & Ha & Hsa).
  destruct (rstrip_split (lstrip s)) as (b & Hb & Hsb).
  exists a, b. repeat split; try assumption.
  rewrite <- Hb. assumption.
Qed.

Lemma strip_trimmed (s : str) : trimmed (strip s).
Proof.
  unfold strip. split.
  - intros c s' H.
    destruct (rstrip_split (lstrip s)) as (b & Hb & _).
    rewrite H in Hb. simpl in Hb. eapply lstrip_head. eassumption.
  - intros c s' H. eapply rstrip_last. eassumption.
Qed.

(** ** [splitlines] *)

Lemma splitlines_from_no_break (s cur : str) :
  no_break cur -> Forall no_break (splitlines_from cur s).
Proof.
  revert cur. induction s as [s IH] using (induction_ltof1 _ (@List.length N)).
  unfold ltof in IH. intros cur Hcur. destruct s as [|c rest]; simpl.
  - destruct cur; constructor; [|constructor].
    apply Forall_rev. assumption.
  - destruct (is_linebreak c) eqn:E.
    + constructor; [apply Forall_rev; assumption|].
      destruct rest as [|d rest'].
      * simpl. constructor.
      * destruct ((c =? CR)%N && (d =? LF)%N).
        -- apply IH; [simpl; lia | constructor].
        -- apply IH; [simpl; lia | constructor].
    + apply IH; [simpl; lia | constructor; assumption].
Qed.

Lemma splitlines_no_break (s : str) : Forall no_break (splitlines s).
Proof. apply splitlines_from_no_break. constructor. Qed.

Lemma splitlines_from_app (l rest cur : str) :
  no_break l -> splitlines_from cur (l ++ rest) = splitlines_from (rev l ++ cur) rest.
Proof.
  revert cur. induction l as [|c l IH]; intros cur H; simpl; [reflexivity|].
  inversion H as [|? ? Hc Hl]; subst. rewrite Hc, IH by assumption.
  rewrite <- app_assoc. reflexivity.
Qed.

(** Lines without a boundary in them, none empty, are what [splitlines]
    finds in their join. *)
Lemma splitlines_join (ls : list str) :
  Forall (fun l => l <> [] /\ no_break l) ls ->
  splitlines (join [LF] ls) = ls.
Proof.
  unfold splitlines. induction ls as [|l ls IH]; intros H; [reflexivity|].
  inversion H as [|? ? [Hne Hnb] Hls]; subst.
  destruct ls as [|l2 ls].
  - simpl. rewrite <- (app_nil_r l) at 1.
    rewrite splitlines_from_app by assumption. simpl. rewrite app_nil_r.
    destruct (rev l) eqn:E.
    + apply (f_equal (@rev N)) in E. rewrite rev_involutive in E. contradiction.
    + rewrite <- E, rev_involutive. reflexivity.
  - change (join [LF] (l :: l2 :: ls)) with (l ++ [LF] ++ join [LF] (l2 :: ls)).
    rewrite splitlines_from_app by assumption.
    rewrite app_nil_r. specialize (IH Hls).
    remember (join [LF] (l2 :: ls)) as j eqn:Ej. clear Ej.
    destruct j as [|d j]; [simpl in IH; discriminate|].
    rewrite <- IH. simpl. rewrite rev_involutive. reflexivity.
Qed.

End StrFacts.

(* ================================================================== *)
(** * What a run puts on the trace *)
(* ================================================================== *)

Section TraceFacts.

Variable lib : Lib.
Variable w : World.

Lemma calls_app f evs1 evs2 : calls f (evs1 ++ evs2) = calls f evs1 + calls f evs2.
Proof.
  induction evs1 as [|[g| |] evs1 IH]; simpl; try assumption; try reflexivity.
  rewrite IH. lia.
Qed.

Lemma verdicts_app evs1 evs2 : verdicts (evs1 ++ evs2) = verdicts evs1 ++ verdicts evs2.
Proof.
  induction evs1 as [|[g| |] evs1 IH]; simpl; try assumption; try reflexivity.
  rewrite IH. reflexivity.
Qed.

Lemma tool_events_calls f evs :
  Forall tool_event evs -> agent_func f = true -> calls f evs = 0.
Proof.
  intros H Hf. induction H as [|ev evs Hev _ IH]; [reflexivity|].
  destruct Hev; simpl; try assumption.
  destruct f, f0; simpl in *; try discriminate; assumption.
Qed.

Lemma tool_events_verdicts evs : Forall tool_event evs -> verdicts evs = [].
Proof.
  intros H. induction H as [|ev evs Hev _ IH]; [reflexivity|].
  destruct Hev; simpl; assumption.
Qed.

Lemma emits_weaken (P Q : Event -> Prop) A (m : M A) :
  (forall ev, P ev -> Q ev) -> emits P m -> emits Q m.
Proof.
  intros HPQ Hm s s' o H. destruct (Hm _ _ _ H) as (evs & Ht & Hf).
  exists evs. split; [assumption|]. eapply Forall_impl; eassumption.
Qed.

Lemma emits_ret Q A (a : A) : emits Q (ret a).
Proof. intros s s' o H. injection H as <- _. exists []. rewrite app_nil_r. auto. Qed.

Lemma emits_raise Q A e : emits Q (@raise A e).
Proof. intros s s' o H. injection H as <- _. exists []. rewrite app_nil_r. auto. Qed.

Lemma emits_lift Q A (o : outcome A) : emits Q (lift o).
Proof. intros s s' o' H. injection H as <- _. exists []. rewrite app_nil_r. auto. Qed.

Lemma emits_bind Q A B (m : M A) (k : A -> M B) :
  emits Q m -> (forall a, emits Q (k a)) -> emits Q (bind m k).
Proof.
  intros Hm Hk s s' o H. unfold bind in H.
  destruct (m s) as [s1 [a|e]] eqn:E.
  - destruct (Hm _ _ _ E) as (e1 & T1 & F1).
    destruct (Hk a _ _ _ H) as (e2 & T2 & F2).
    exists (e1 ++ e2). rewrite T2, T1, app_assoc. split; [reflexivity|].
    apply Forall_app. auto.
  - injection H as <- _. eapply Hm. eassumption.
Qed.

Lemma emits_try_except Q A (m : M A) h :
  emits Q m -> (forall e k, h e = Some k -> emits Q k) -> emits Q (try_except m h).
Proof.
  intros Hm Hh s s' o H. unfold try_except in H.
  destruct (m s) as [s1 [a|e]] eqn:E.
  - injection H as <- <-. eapply Hm. eassumption.
  - destruct (Hm _ _ _ E) as (e1 & T1 & F1).
    destruct (h e) as [k|] eqn:Ek.
    + destruct (Hh _ _ Ek _ _ _ H) as (e2 & T2 & F2).
      exists (e1 ++ e2). rewrite T2, T1, app_assoc. split; [reflexivity|].
      apply Forall_app. auto.
    + injection H as <- _. exists e1. auto.
Qed.

Lemma emits_log (Q : Event -> Prop) ev : Q ev -> emits Q (log ev).
Proof.
  intros HQ s s' o H. injection H as <- _. exists [ev]. simpl. auto.
Qed.

Lemma emits_send (Q : Event -> Prop) f rq : Q (Sent f rq) -> emits Q (send w f rq).
Proof.
  intros HQ s s' o H. injection H as <- _. exists [Sent f rq]. simpl. auto.
Qed.

Lemma emits_getenv Q k : emits Q (getenv k).
Proof. intros s s' o H. injection H as <- _. exists []. rewrite app_nil_r. auto. Qed.

Lemma emits_environ_getitem Q k : emits Q (environ_getitem lib k).
Proof. intros s s' o H. injection H as <- _. exists []. rewrite app_nil_r. auto. Qed.

Lemma emits_environ_setitem Q k v : emits Q (environ_setitem lib k v).
Proof.
  unfold environ_setitem.
  destruct k; try apply emits_raise. destruct v; try apply emits_raise.
  destruct (putenv_error lib s s0); [apply emits_raise|].
  intros st st' o H. injection H as <- _. exists []. simpl.
  rewrite app_nil_r. auto.
Qed.

Lemma emits_for_each Q A (body : A -> M unit) xs :
  (forall x, emits Q (body x)) -> emits Q (for_each body xs).
Proof.
  intros Hb. induction xs as [|x xs IH]; simpl.
  - apply emits_ret.
  - apply emits_bind; auto.
Qed.

Lemma emits_raise_for_status Q r : emits Q (raise_for_status r).
Proof.
  unfold raise_for_status. destruct (status_error r);
    [apply emits_raise | apply emits_ret].
Qed.

Lemma emits_singleton_dict Q k t : emits Q (singleton_dict k t).
Proof.
  unfold singleton_dict. destruct (hashable k);
    [apply emits_ret | apply emits_raise].
Qed.

Lemma emits_load_config Q path : emits Q (load_config lib w path).
Proof.
  unfold load_config.
  apply emits_bind; [apply emits_lift|]. intros config.
  apply emits_bind; [apply emits_lift|]. intros kvs.
  apply emits_for_each. intros x. apply emits_environ_setitem.
Qed.

Lemma emits_WebSearcher_init Q model verbose :
  emits Q (WebSearcher_init lib w model verbose).
Proof.
  unfold WebSearcher_init.
  apply emits_bind; [apply emits_load_config|]. intros _.
  apply emits_bind; [apply emits_getenv|]. intros k. apply emits_ret.
Qed.

End TraceFacts.

Create HintDb emits.

#[local] Hint Resolve emits_ret emits_raise emits_lift emits_getenv
  emits_environ_getitem emits_environ_setitem emits_raise_for_status
  emits_singleton_dict emits_load_config emits_WebSearcher_init : emits.

(** Goes through a method statement by statement. *)
Ltac emits_steps :=
  repeat first
    [ solve [auto with emits]
    | apply emits_bind; [|intros ?]
    | apply emits_try_except; [|intros ? ? ?]
    | match goal with |- emits _ (if ?b then _ else _) => destruct b end ].

Section ToolTrace.

Variable lib : Lib.
Variable w : World.

Lemma emits_generate_searches self plan query :
  emits tool_event (generate_searches lib w self plan query).
Proof.
  unfold generate_searches, enter. emits_steps.
  - apply emits_log. constructor. reflexivity.
  - apply emits_send. constructor; reflexivity.
Qed.

Lemma emits_get_search_page self results plan query :
  emits tool_event (get_search_page lib w self results plan query).
Proof.
  unfold get_search_page, enter. emits_steps.
  - apply emits_log. constructor. reflexivity.
  - apply emits_send. constructor; reflexivity.
Qed.

Lemma emits_fetch_search_results self queries :
  emits tool_event (fetch_search_results lib w self queries).
Proof.
  unfold fetch_search_results, enter. emits_steps.
  - apply emits_log. constructor. reflexivity.
  - apply emits_send. constructor; reflexivity.
  - destruct e; try discriminate;
      match goal with H : Some _ = Some _ |- _ => injection H as <- end;
      apply emits_ret.
Qed.

Lemma emits_scrape_website_content self website_url :
  emits tool_event (scrape_website_content lib w self website_url).
Proof.
  unfold scrape_website_content, enter. emits_steps.
  - apply emits_log. constructor. reflexivity.
  - apply emits_send. constructor; reflexivity.
  - destruct e; try discriminate;
      match goal with H : Some _ = Some _ |- _ => injection H as <- end;
      apply emits_singleton_dict.
Qed.

Lemma emits_use_tool self plan query :
  emits tool_event (use_tool lib w self plan query).
Proof.
  pose proof emits_generate_searches. pose proof emits_fetch_search_results.
  pose proof emits_get_search_page. pose proof emits_scrape_website_content.
  unfold use_tool, enter. emits_steps.
  apply emits_log. constructor. reflexivity.
Qed.

End ToolTrace.

Arguments lit : simpl never.
Arguments obj : simpl never.
Arguments vstr : simpl never.
Arguments tools_schema : simpl never.

(** Runs the method in [H] to each of its ends. *)
Ltac run_in H :=
  repeat (cbn beta iota delta [fst snd] in H;
          match type of H with
          | context [match ?o with Return _ => _ | Raise _ => _ end] =>
              destruct o eqn:?
          end);
  cbn beta iota in H.

(** Closes a footprint goal once the final state is known. *)
Ltac footprint_done :=
  cbn [trace]; repeat rewrite <- app_assoc;
  eexists; split; [reflexivity|]; split;
  [ repeat first
      [ apply Forall_nil | apply Forall_cons
      | apply agent_called; reflexivity | apply agent_verdict
      | apply agent_planning; reflexivity
      | apply agent_integration; reflexivity
      | apply agent_check; reflexivity ]
  | intros ? Hret; first [discriminate Hret | injection Hret as <-; reflexivity] ].

Section AgentTrace.

Variable lib : Lib.
Variable w : World.
Variable self : Agent.

Lemma footprint_tool A (m : M A) :
  emits tool_event m -> footprint (agent_event self) m (fun _ => (0, 0, 0, [])).
Proof.
  intros Hm s s' o H. destruct (Hm _ _ _ H) as (evs & Ht & Hf).
  exists evs. split; [assumption|]. split.
  - eapply Forall_impl; [|eassumption]. intros ev. apply agent_tool.
  - intros _ _. rewrite !(tool_events_calls _ Hf) by reflexivity.
    rewrite (tool_events_verdicts Hf). reflexivity.
Qed.

Lemma footprint_run_planning_agent query plan outputs feedback :
  footprint (agent_event self)
    (run_planning_agent lib w self query plan outputs feedback)
    (fun _ => (1, 0, 0, [])).
Proof.
  intros s s' o H.
  unfold run_planning_agent, bind, enter, log, lift, send, ret in H.
  run_in H; injection H as <- <-; footprint_done.
Qed.

Lemma footprint_run_integration_agent query plan outputs :
  footprint (agent_event self)
    (run_integration_agent lib w self query plan outputs)
    (fun _ => (0, 1, 0, [])).
Proof.
  intros s s' o H.
  unfold run_integration_agent, bind, enter, log, lift, send, ret in H.
  run_in H; injection H as <- <-; footprint_done.
Qed.

Lemma footprint_check_response response query :
  footprint (agent_event self)
    (check_response lib w self response query)
    (fun verdict => (0, 0, 1, [verdict])).
Proof.
  intros s s' o H.
  unfold check_response, bind, enter, log, lift, send, ret in H.
  run_in H; injection H as <- <-; footprint_done.
Qed.

End AgentTrace.

Section LoopFacts.

Variable lib : Lib.
Variable w : World.
Variable self : Agent.
Variable tool : WebSearcher.
Variable query : value.

Lemma execute_loop_spec fuel : forall l s s' o,
  execute_loop lib w fuel self tool query l s = (s', o) ->
  exists evs, trace s' = trace s ++ evs /\ Forall (agent_event self) evs /\
    forall r, o = Return r -> loop_post fuel l evs r.
Proof.
  induction fuel as [|fuel IH]; intros l s s' o H; simpl in H;
    destruct (negb (meets_requirements l) && (iterations l <? 5)%Z) eqn:C.
  - injection H as <- <-. exists []. rewrite app_nil_r.
    split; [reflexivity|]. split; [constructor|].
    intros r [= <-]. unfold loop_post; cbn [calls verdicts Z.of_nat].
    apply andb_true_iff in C as [_ C]. apply Z.ltb_lt in C. lia.
  - injection H as <- <-. exists []. rewrite app_nil_r.
    split; [reflexivity|]. split; [constructor|].
    intros r [= <-]. unfold loop_post; cbn [calls verdicts Z.of_nat]. repeat split; auto; try lia.
    apply andb_false_iff in C as [C|C].
    + left. destruct (meets_requirements l); [reflexivity | discriminate].
    + right. apply Z.ltb_ge in C. assumption.
  - apply andb_true_iff in C as [_ C]. apply Z.ltb_lt in C.
    unfold bind in H.
    destruct (run_planning_agent _ _ _ _ _ _ _ s) as [s1 [plan1|e]] eqn:E1;
      destruct (footprint_run_planning_agent lib w self _ _ _ _ _ E1) as (ev1 & T1 & F1 & C1).
    2:{ injection H as <- <-. exists ev1. repeat split; auto. discriminate. }
    destruct (use_tool _ _ _ _ _ s1) as [s2 [outputs1|e]] eqn:E2;
      destruct (footprint_tool self (emits_use_tool lib w tool plan1 query) _ E2)
        as (ev2 & T2 & F2 & C2).
    2:{ injection H as <- <-. exists (ev1 ++ ev2).
        rewrite T2, T1, app_assoc. repeat split; auto.
        - apply Forall_app; auto.
        - discriminate. }
    destruct (run_integration_agent _ _ _ _ _ _ s2) as [s3 [response1|e]] eqn:E3;
      destruct (footprint_run_integration_agent lib w self _ _ _ _ E3) as (ev3 & T3 & F3 & C3).
    2:{ injection H as <- <-. exists (ev1 ++ ev2 ++ ev3).
        rewrite T3, T2, T1, <- !app_assoc. repeat split; auto.
        - repeat (apply Forall_app; split); auto.
        - discriminate. }
    destruct (check_response _ _ _ _ _ s3) as [s4 [verdict|e]] eqn:E4;
      destruct (footprint_check_response lib w self _ _ _ E4) as (ev4 & T4 & F4 & C4).
    2:{ injection H as <- <-. exists (ev1 ++ ev2 ++ ev3 ++ ev4).
        rewrite T4, T3, T2, T1, <- !app_assoc. repeat split; auto.
        - repeat (apply Forall_app; split); auto.
        - discriminate. }
    destruct (IH _ _ _ _ H) as (ev5 & T5 & F5 & C5).
    exists (ev1 ++ ev2 ++ ev3 ++ ev4 ++ ev5).
    rewrite T5, T4, T3, T2, T1, <- !app_assoc.
    split; [reflexivity|]. split; [repeat (apply Forall_app; split); auto|].
    intros r ->. specialize (C5 _ eq_refl).
    specialize (C1 _ eq_refl). specialize (C2 _ eq_refl).
    specialize (C3 _ eq_refl). specialize (C4 _ eq_refl).
    cbv beta in C1, C2, C3, C4.
    injection C1 as P1 I1 K1 V1. injection C2 as P2 I2 K2 V2.
    injection C3 as P3 I3 K3 V3. injection C4 as P4 I4 K4 V4.
    destruct r as [l'|]; unfold loop_post in *; cbn [iterations meets_requirements] in *.
    + destruct C5 as (Q1 & Q2 & Q3 & Q4 & Q5 & Q6).
      rewrite !calls_app, !verdicts_app.
      rewrite P1, P2, P3, P4, I1, I2, I3, I4, K1, K2, K3, K4, V1, V2, V3, V4.
      cbn [app In]. repeat split; try lia; auto.
    + lia.
  - injection H as <- <-. exists []. rewrite app_nil_r.
    split; [reflexivity|]. split; [constructor|].
    intros r [= <-]. unfold loop_post; cbn [calls verdicts Z.of_nat]. repeat split; auto; try lia.
    apply andb_false_iff in C as [C|C].
    + left. destruct (meets_requirements l); [reflexivity | discriminate].
    + right. apply Z.ltb_ge in C. assumption.
Qed.

End LoopFacts.

(** The same for the whole method: the loop starts at [iterations = 0]
    with [meets_requirements = False], whatever argument was passed. *)
Lemma execute_spec lib w self fuel arg s s' o :
  execute lib w fuel self arg s = (s', o) ->
  exists evs, trace s' = trace s ++ evs /\ Forall (agent_event self) evs /\
    forall r, o = Return r ->
      loop_post fuel
        {| meets_requirements := false; plan := VNone; outputs := VNone;
           response := VNone; iterations := 0 |} evs r.
Proof.
  intros H. unfold execute, bind, lift in H.
  destruct (stdin w) as [q|e].
  2:{ injection H as <- <-. exists []. rewrite app_nil_r.
      repeat split; auto. discriminate. }
  destruct (WebSearcher_init _ _ _ _ s) as [s1 [t|e]] eqn:E1;
    destruct (emits_WebSearcher_init lib w (agent_event self) _ _ _ E1)
      as (ev1 & T1 & F1).
  2:{ injection H as <- <-. exists ev1. repeat split; auto. discriminate. }
  assert (ev1 = []) as ->.
  { destruct (emits_WebSearcher_init lib w (fun _ => False) _ _ _ E1)
      as (ev & T & F).
    rewrite T1 in T. apply app_inv_head in T. subst ev.
    destruct ev1; [reflexivity|]. inversion F as [|? ? HF]. destruct HF. }
  rewrite app_nil_r in T1.
  rewrite <- T1. eapply execute_loop_spec. eassumption.
Qed.

(** ** Fuel

    The fuel belongs to the model only: once the loop ends by itself,
    more fuel changes nothing, and five units are always enough. *)

Section Fuel.

Variable lib : Lib.
Variable w : World.
Variable self : Agent.

Lemma execute_loop_more_fuel fuel : forall tool query l s s' o,
  execute_loop lib w fuel self tool query l s = (s', o) ->
  o <> Return None ->
  execute_loop lib w (S fuel) self tool query l s = (s', o).
Proof.
  induction fuel as [|fuel IH]; intros tool query l s s' o H Hne.
  - simpl in *.
    destruct (negb (meets_requirements l) && (iterations l <? 5)%Z);
      [|exact H].
    injection H as <- <-. contradiction.
  - remember (S fuel) as n eqn:En. simpl. rewrite En in H. simpl in H.
    destruct (negb (meets_requirements l) && (iterations l <? 5)%Z);
      [|exact H].
    unfold bind in *.
    destruct (run_planning_agent _ _ _ _ _ _ _ s) as [s1 [plan1|e]]; [|exact H].
    destruct (use_tool _ _ _ _ _ s1) as [s2 [outputs1|e]]; [|exact H].
    destruct (run_integration_agent _ _ _ _ _ _ s2) as [s3 [response1|e]];
      [|exact H].
    destruct (check_response _ _ _ _ _ s3) as [s4 [verdict|e]]; [|exact H].
    apply IH; assumption.
Qed.

Lemma execute_loop_enough_fuel fuel fuel' tool query l s s' o :
  fuel <= fuel' ->
  execute_loop lib w fuel self tool query l s = (s', o) ->
  o <> Return None ->
  execute_loop lib w fuel' self tool query l s = (s', o).
Proof.
  intros Hle H Hne. induction Hle as [|fuel' _ IH]; [exact H|].
  apply execute_loop_more_fuel; assumption.
Qed.

(** With fuel for five rounds or more, a run is the run with fuel for
    exactly five. *)
Lemma execute_fuel_irrelevant fuel arg s :
  5 <= fuel ->
  execute lib w fuel self arg s = execute lib w 5 self arg s.
Proof.
  intros Hle. unfold execute, bind, lift.
  destruct (stdin w) as [q|e]; [|reflexivity].
  destruct (WebSearcher_init _ _ _ _ s) as [s1 [tool|e]]; [|reflexivity].
  match goal with
  | |- _ = execute_loop _ _ 5 _ _ _ ?l0 _ =>
      destruct (execute_loop lib w 5 self tool (VStr q) l0 s1)
        as [s' o] eqn:E
  end.
  eapply execute_loop_enough_fuel; [exact Hle | exact E |].
  destruct (execute_loop_spec _ _ _ _ _ _ _ _ E) as (evs & _ & _ & P).
  intros ->. specialize (P _ eq_refl). simpl in P. lia.
Qed.

End Fuel.

(* ================================================================== *)
(** * The orchestration loop *)
(* ================================================================== *)



(** The run in which every verdict is no: five rounds, five calls of each
    method, thirty-five requests. *)
Example never_satisfied_run :
  let run := execute Demo.lib never_satisfied 5 Demo.agent (VInt 5) Demo.start in
  option_map iterations (match snd run with Return r => r | Raise _ => None end) = Some 5%Z /\
  calls run_planning_agent_ (trace (fst run)) = 5 /\
  calls run_integration_agent_ (trace (fst run)) = 5 /\
  calls check_response_ (trace (fst run)) = 5 /\
  verdicts (trace (fst run)) = [false; false; false; false; false] /\
  clock (fst run) = 35.
Proof. vm_compute. repeat split. Qed.

(** The run in which the first verdict is yes: one round. *)
Example satisfied_at_once_run :
  let run := execute Demo.lib satisfied_at_once 5 Demo.agent (VInt 5) Demo.start in
  option_map iterations (match snd run with Return r => r | Raise _ => None end) = Some 1%Z /\
  calls check_response_ (trace (fst run)) = 1 /\
  verdicts (trace (fst run)) = [true].
Proof. vm_compute. repeat split. Qed.

(** C8.  The [iterations] argument has no effect: two calls that differ
    only in it behave the same, because the method sets the variable to 0
    before the loop; and with any argument the loop stops after at most
    five rounds, after exactly five when it is not left on a true
    verdict. *)
Theorem execute_ignores_iterations_argument lib w self fuel (arg1 arg2 : value) s :
  execute lib w fuel self arg1 s = execute lib w fuel self arg2 s /\
  forall s' l',
    5 <= fuel ->
    execute lib w fuel self arg1 s = (s', Return (Some l')) ->
    (iterations l' <= 5)%Z /\
    (meets_requirements l' = false -> iterations l' = 5%Z).
Proof.
  split; [reflexivity|].
  intros s' l' _ H.
  destruct (execute_spec _ _ _ _ _ _ H) as (evs & _ & _ & P).
  specialize (P _ eq_refl). destruct P as (_ & _ & _ & P4 & P5 & _).
  cbn [iterations] in P5. split; [lia|].
  intros Hm. destruct P4 as [Hm'|]; [congruence | lia].
Qed.

Lemma execute_ignores_iterations_argument_witness :
  let run1 := execute Demo.lib never_satisfied 7 Demo.agent (VInt 1) Demo.start in
  let run2 := execute Demo.lib never_satisfied 7 Demo.agent (VInt 100) Demo.start in
  run1 = run2 /\
  exists l', snd run1 = Return (Some l') /\ (iterations l' <= 5)%Z /\
             (meets_requirements l' = false -> iterations l' = 5%Z).
Proof.
  intros run1 run2.
  destruct (@execute_ignores_iterations_argument Demo.lib never_satisfied Demo.agent 7
              (VInt 1) (VInt 100) Demo.start) as [Heq Hcap].
  split; [exact Heq|].
  destruct (snd run1) as [[l'|]|e] eqn:E; try (vm_compute in E; discriminate E).
  exists l'. split; [reflexivity|].
  apply (Hcap (fst run1) l'); [lia|].
  rewrite <- E. apply surjective_pairing.
Defined.

(* ================================================================== *)
(** * The requests of a run: timeouts and temperatures *)
(* ================================================================== *)

(** C7, as stated, fails: in the run in which the first verdict is yes,
    the requests of [generate_searches] (the fifth event of the trace) and
    [get_search_page] (the ninth) go to the completion endpoint without
    any timeout. *)
Lemma completion_timeouts_counterexample :
  let run := execute Demo.lib satisfied_at_once 5 Demo.agent (VInt 5) Demo.start in
  timeouts_as_claimed (trace (fst run)) = false /\
  match nth_error (trace (fst run)) 4 with
  | Some (Sent generate_searches_ rq) =>
      rq_url rq = VStr completions_url /\ rq_timeout rq = None
  | _ => False
  end /\
  match nth_error (trace (fst run)) 8 with
  | Some (Sent get_search_page_ rq) =>
      rq_url rq = VStr completions_url /\ rq_timeout rq = None
  | _ => False
  end.
Proof. vm_compute. repeat split. Qed.

Lemma sent_events self evs f rq :
  Forall (agent_event self) evs -> In (Sent f rq) evs ->
  agent_event self (Sent f rq).
Proof. intros H Hin. rewrite Forall_forall in H. apply H. assumption. Qed.

(** C7, amended.  In every run of [execute], whatever its end, the
    requests of [run_planning_agent], [run_integration_agent] and
    [check_response] carry a 180-second timeout and the page fetch of
    [scrape_website_content] a 15-second one; the requests of
    [generate_searches], [get_search_page] and [fetch_search_results]
    carry no timeout. *)
Theorem request_timeouts lib w self arg fuel s s' o :
  execute lib w fuel self arg s = (s', o) ->
  exists evs, trace s' = trace s ++ evs /\
    forall f rq, In (Sent f rq) evs ->
      rq_timeout rq =
        match f with
        | run_planning_agent_ | run_integration_agent_ | check_response_ => Some 180%Z
        | scrape_website_content_ => Some 15%Z
        | generate_searches_ | get_search_page_ | fetch_search_results_ => None
        | use_tool_ => None
        end.
Proof.
  intros H. destruct (execute_spec _ _ _ _ _ _ H) as (evs & T & F & _).
  exists evs. split; [assumption|]. intros f rq Hin.
  pose proof (@sent_events _ _ _ _ F Hin) as Hev.
  inversion Hev as [| |ev Htool| | |]; subst; try assumption.
  inversion Htool; subst; assumption.
Qed.

Lemma request_timeouts_witness :
  let run := execute Demo.lib never_satisfied 5 Demo.agent (VInt 5) Demo.start in
  exists evs, trace (fst run) = trace Demo.start ++ evs /\
    forall f rq, In (Sent f rq) evs ->
      rq_timeout rq =
        match f with
        | run_planning_agent_ | run_integration_agent_ | check_response_ => Some 180%Z
        | scrape_website_content_ => Some 15%Z
        | generate_searches_ | get_search_page_ | fetch_search_results_ => None
        | use_tool_ => None
        end.
Proof.
  intros run.
  apply (@request_timeouts Demo.lib never_satisfied Demo.agent (VInt 5) 5
           Demo.start (fst run) (snd run)).
  apply surjective_pairing.
Defined.

(** C10.  In every run of [execute], whatever its end, the requests of
    [generate_searches], [get_search_page] and [check_response] have
    ["temperature": 0] in their body, whatever [self.temperature] is; the
    requests of [run_planning_agent] and [run_integration_agent] have
    [self.temperature] there. *)
Theorem request_temperatures lib w self arg fuel s s' o :
  execute lib w fuel self arg s = (s', o) ->
  exists evs, trace s' = trace s ++ evs /\
    forall f rq, In (Sent f rq) evs ->
      match f with
      | generate_searches_ | get_search_page_ | check_response_ =>
          data_temperature rq = Some (VInt 0)
      | run_planning_agent_ | run_integration_agent_ =>
          data_temperature rq = Some (temperature self)
      | _ => True
      end.
Proof.
  intros H. destruct (execute_spec _ _ _ _ _ _ H) as (evs & T & F & _).
  exists evs. split; [assumption|]. intros f rq Hin.
  pose proof (@sent_events _ _ _ _ F Hin) as Hev.
  inversion Hev as [| |ev Htool| | |]; subst; try assumption.
  inversion Htool; subst; try assumption; exact I.
Qed.

Lemma request_temperatures_witness :
  let run := execute Demo.lib never_satisfied 5 Demo.agent (VInt 5) Demo.start in
  temperature Demo.agent = VFloat (7 # 10) /\
  exists evs, trace (fst run) = trace Demo.start ++ evs /\
    forall f rq, In (Sent f rq) evs ->
      match f with
      | generate_searches_ | get_search_page_ | check_response_ =>
          data_temperature rq = Some (VInt 0)
      | run_planning_agent_ | run_integration_agent_ =>
          data_temperature rq = Some (temperature Demo.agent)
      | _ => True
      end.
Proof.
  intros run. split; [reflexivity|].
  apply (@request_temperatures Demo.lib never_satisfied Demo.agent (VInt 5) 5
           Demo.start (fst run) (snd run)).
  apply surjective_pairing.
Defined.

(* ================================================================== *)
(** * The verdict of [check_response] *)
(* ================================================================== *)

Lemma is_yes_iff (v : value) : is_yes v = true <-> v = vstr "yes".
Proof.
  unfold is_yes, key_eq_str, vstr. destruct v; split; try discriminate.
  - intros H. apply StrFacts.eqb_eq in H. congruence.
  - intros [= ->]. apply StrFacts.eqb_refl.
Qed.

(** C2.  When the completion service answers the request of
    [check_response] and the answer holds a [meets_requirements] field
    [v], the method returns, and returns [True] if and only if [v] is the
    string ["yes"]; for every other field value it returns [False]. *)
Theorem check_response_true_iff_yes lib w self response query s r d v :
  http w (clock s) (check_response_request lib self response query) = Return r ->
  json_body r = Return d ->
  structured_field lib d (lit "meets_requirements") = Return v ->
  exists verdict,
    snd (check_response lib w self response query s) = Return verdict /\
    (verdict = true <-> v = vstr "yes") /\
    (verdict = false <-> v <> vstr "yes").
Proof.
  intros Hh Hj Hf.
  unfold check_response, bind, enter, log, send, lift, ret.
  cbn [clock snd]. rewrite Hh, Hj, Hf. cbn [snd].
  exists (is_yes v). split; [destruct (is_yes v); reflexivity|].
  pose proof (is_yes_iff v) as Hy. split; [assumption|].
  destruct (is_yes v); split; try discriminate; try reflexivity.
  - intros Hv. exfalso. apply Hv, Hy. reflexivity.
  - intros _ Hv. apply Hy in Hv. discriminate.
Qed.

Lemma check_response_true_iff_yes_witness :
  exists verdict,
    snd (check_response Demo.lib satisfied_at_once Demo.agent
           (vstr "Water boils at 100 C.") (vstr "boiling point?") (at_request 6))
      = Return verdict /\
    (verdict = true <-> vstr "yes" = vstr "yes") /\
    (verdict = false <-> vstr "yes" <> vstr "yes").
Proof.
  eapply (@check_response_true_iff_yes Demo.lib satisfied_at_once Demo.agent
            (vstr "Water boils at 100 C.") (vstr "boiling point?") (at_request 6)).
  - reflexivity.
  - reflexivity.
  - vm_compute. reflexivity.
Defined.

(** The variants the specification names are not ["yes"]. *)
Example check_response_variants :
  map (fun answer =>
         snd (check_response Demo.lib (Demo.world (fun _ => answer) [])
                Demo.agent (vstr "Water boils at 100 C.") (vstr "boiling point?")
                (at_request 6)))
      ["yes"; "Yes."; "no, because it is short"; "Yes"; "yes "; "no"; ""]
  = [Return true; Return false; Return false; Return false; Return false;
     Return false; Return false].
Proof. vm_compute. reflexivity. Qed.

(** A field that is not a string at all is not ["yes"] either. *)
Example is_yes_of_true : is_yes (VBool true) = false.
Proof. reflexivity. Qed.

(* ================================================================== *)
(** * How a call of [requests] can fail *)
(* ================================================================== *)

(* ================================================================== *)
(** * [scrape_website_content] *)
(* ================================================================== *)

Section Scrape.

Variable lib : Lib.
Variable w : World.
Variable self : WebSearcher.



End Scrape.



Example scrape_on_timeout :
  snd (scrape_website_content Demo.lib page_times_out searcher
         (vstr "https://example.com/boiling") (at_request 4))
  = Return (VDict [(vstr "https://example.com/boiling",
                    vstr "Failed to retrieve content due to an error: HTTPSConnectionPool: Read timed out.")]).
Proof. vm_compute. reflexivity. Qed.

(** A key that cannot be hashed is the one input on which the method
    raises: [{website_url: ...}] with a list for [website_url]. *)
Example scrape_unhashable :
  snd (scrape_website_content Demo.lib page_times_out searcher
         (VList [vstr "https://example.com/boiling"]) (at_request 4))
  = Raise TypeError.
Proof. vm_compute. reflexivity. Qed.

(* ================================================================== *)
(** * [fetch_search_results] *)
(* ================================================================== *)

Section Fetch.

Variable lib : Lib.
Variable w : World.
Variable self : WebSearcher.
Variable search_queries : value.
Variable s : State.
Variable key : str.

Hypothesis key_set : env_get (lit "SERPER_DEV_API_KEY") (environ s) = Some key.

(** The method once the key is read and the request is sent. *)
Lemma fetch_search_results_unfold :
  snd (fetch_search_results lib w self search_queries s)
  = match provider_answer w search_queries s key with
    | Return response =>
        match status_error response with
        | Some msg => Return (lit "HTTP error occurred: " ++ msg)
        | None =>
            match
              obind (json_body response) (fun results =>
              obind (contains_key (lit "organic") results) (fun has_organic =>
              if has_organic
              then obind (getitem_key lib results (lit "organic")) (format_results lib)
              else Return (lit "No organic results found.")))
            with
            | Raise (HTTPError msg) => Return (lit "HTTP error occurred: " ++ msg)
            | Raise (RequestException msg) =>
                Return (lit "Request exception occurred: " ++ msg)
            | Raise (KeyError msg) =>
                Return (lit "Key error in handling response: " ++ msg)
            | o => o
            end
        end
    | Raise (HTTPError msg) => Return (lit "HTTP error occurred: " ++ msg)
    | Raise (RequestException msg) =>
        Return (lit "Request exception occurred: " ++ msg)
    | Raise (KeyError msg) => Return (lit "Key error in handling response: " ++ msg)
    | Raise e => Raise e
    end.
Proof.
  unfold provider_answer, fetch_search_results, try_except, bind, enter, log,
    environ_getitem, send, raise_for_status, lift, raise, ret.
  cbn [environ clock]. rewrite key_set.
  destruct (http w (clock s) _) as [response|e]; [|destruct e; reflexivity].
  destruct (status_error response); [reflexivity|].
  destruct (json_body response) as [results|e]; [|destruct e; reflexivity].
  cbn [obind].
  destruct (contains_key (lit "organic") results) as [[|]|e];
    [| reflexivity | destruct e; reflexivity].
  cbn [obind].
  destruct (getitem_key lib results (lit "organic")) as [organic|e];
    [|destruct e; reflexivity].
  cbn [obind].
  destruct (format_results lib organic) as [text|e]; [|destruct e]; reflexivity.
Qed.


Lemma fetch_reply results :
  provider_replies (provider_answer w search_queries s key) results ->
  snd (fetch_search_results lib w self search_queries s)
  = match
      obind (contains_key (lit "organic") results) (fun has_organic =>
      if has_organic
      then obind (getitem_key lib results (lit "organic")) (format_results lib)
      else Return (lit "No organic results found."))
    with
    | Raise (HTTPError msg) => Return (lit "HTTP error occurred: " ++ msg)
    | Raise (RequestException msg) =>
        Return (lit "Request exception occurred: " ++ msg)
    | Raise (KeyError msg) => Return (lit "Key error in handling response: " ++ msg)
    | o => o
    end.
Proof.
  intros (r & Ho & Hst & Hj). rewrite fetch_search_results_unfold.
  rewrite Ho, Hst, Hj. reflexivity.
Qed.

End Fetch.

Lemma existsb_key_find k d :
  existsb (fun kv : value * value => key_eq_str (fst kv) k) d
  = match dict_find (fun k' => key_eq_str k' k) d with
    | Some _ => true
    | None => false
    end.
Proof.
  induction d as [|[k' v] d IH]; [reflexivity|]. simpl.
  destruct (key_eq_str k' k); [reflexivity | exact IH].
Qed.



Example fetch_on_timeout :
  snd (fetch_search_results Demo.lib provider_times_out searcher
         (vstr "boiling point of water") (at_request 2))
  = Return (lit "Request exception occurred: Read timed out.").
Proof. vm_compute. reflexivity. Qed.



(** C9.  When the provider answers with an object whose ["organic"] entry
    is the empty list, [fetch_search_results] returns the empty string:
    not the "No organic results found." message, not an error text. *)
Theorem fetch_search_results_empty_organic lib w self search_queries s key d :
  env_get (lit "SERPER_DEV_API_KEY") (environ s) = Some key ->
  provider_replies (provider_answer w search_queries s key) (VDict d) ->
  dict_find (fun k => key_eq_str k (lit "organic")) d = Some (VList []) ->
  snd (fetch_search_results lib w self search_queries s) = Return [] /\
  format_results lib (VList []) = Return [] /\
  [] <> lit "No organic results found.".
Proof.
  intros Hkey Hr Hd. split; [|split; [reflexivity | discriminate]].
  rewrite (@fetch_reply lib w self search_queries s key Hkey (VDict d) Hr).
  cbn [contains_key obind]. rewrite existsb_key_find, Hd.
  cbn [getitem_key]. rewrite Hd. reflexivity.
Qed.

Lemma fetch_search_results_empty_organic_witness :
  snd (fetch_search_results Demo.lib (provider_says (obj [("organic", VList [])]))
         searcher (vstr "boiling") (at_request 2)) = Return [] /\
  format_results Demo.lib (VList []) = Return [] /\
  [] <> lit "No organic results found.".
Proof.
  apply (@fetch_search_results_empty_organic Demo.lib _ searcher (vstr "boiling")
           (at_request 2) (lit "serper-test") [(vstr "organic", VList [])]).
  - reflexivity.
  - eexists. repeat split.
  - reflexivity.
Defined.

(** Replies that are no objects: a list or a string without "organic"
    gives the same message; [None] or a number makes [in] raise
    [TypeError], which no clause of the method catches. *)
Example fetch_on_other_replies :
  map (fun reply =>
         snd (fetch_search_results Demo.lib (provider_says reply) searcher
                (vstr "boiling") (at_request 2)))
      [VList []; vstr "rate limited"; VNone; VInt 7]
  = [Return (lit "No organic results found.");
     Return (lit "No organic results found.");
     Raise TypeError; Raise TypeError].
Proof. vm_compute. reflexivity. Qed.

(** One result with all three fields, one with none. *)
Example format_results_blocks :
  format_results Demo.lib
    (VList [ obj [("title", vstr "Boiling point");
                  ("link", vstr "https://example.com/boiling");
                  ("snippet", vstr "100 C")];
             obj [] ])
  = Return (lit "Title: Boiling point" ++ [LF]
            ++ lit "Link: https://example.com/boiling" ++ [LF]
            ++ lit "Snippet: 100 C" ++ [LF] ++ lit "---" ++ [LF]
            ++ lit "Title: No Title" ++ [LF] ++ lit "Link: #" ++ [LF]
            ++ lit "Snippet: No snippet available." ++ [LF] ++ lit "---").
Proof. vm_compute. reflexivity. Qed.

(* ================================================================== *)
(** * The text [scrape_website_content] keeps *)
(* ================================================================== *)


Module CleanFacts.

Import StrFacts.

Lemma lstrip_nil_iff (s : str) : lstrip s = [] <-> blank s = true.
Proof.
  unfold blank. induction s as [|c s IH]; simpl; [tauto|].
  destruct (is_space c); simpl; [exact IH|]. split; discriminate.
Qed.

Lemma blank_rev (s : str) : blank (rev s) = blank s.
Proof.
  unfold blank. induction s as [|c s IH]; [reflexivity|]. simpl.
  rewrite forallb_app, IH. simpl. rewrite andb_true_r. apply andb_comm.
Qed.

Lemma blank_lstrip (s : str) : blank (lstrip s) = blank s.
Proof.
  unfold blank. induction s as [|c s IH]; [reflexivity|]. simpl.
  destruct (is_space c) eqn:E; simpl; [exact IH|]. rewrite E. reflexivity.
Qed.

(** [line.strip()] is empty exactly for a blank line. *)
Lemma strip_nonempty (s : str) : nonempty (strip s) = negb (blank s).
Proof.
  unfold strip, rstrip.
  assert (H : lstrip (rev (lstrip s)) = [] <-> blank s = true).
  { rewrite lstrip_nil_iff, blank_rev, blank_lstrip. tauto. }
  destruct (lstrip (rev (lstrip s))) as [|c t] eqn:E.
  - simpl. destruct H as [H _]. rewrite (H eq_refl). reflexivity.
  - destruct (blank s).
    + destruct H as [_ H]. discriminate (H eq_refl).
    + simpl. destruct (rev t ++ [c]) eqn:E2; [|reflexivity].
      destruct (rev t); discriminate.
Qed.

Lemma strip_no_break (s : str) : no_break s -> no_break (strip s).
Proof.
  intros H. destruct (strip_split s) as (a & b & Hs & _).
  unfold no_break in *. rewrite Hs in H.
  apply Forall_app in H as [_ H]. apply Forall_app in H as [H _]. exact H.
Qed.

Lemma clean_lines_blank (text : str) :
  clean_lines text = map strip (filter (fun line => negb (blank line)) (splitlines text)).
Proof.
  unfold clean_lines. f_equal. apply filter_ext. intros l. apply strip_nonempty.
Qed.

(** The lines of the cleaned text are the cleaned lines. *)
Lemma splitlines_clean_text (text : str) :
  splitlines (clean_text text) = clean_lines text.
Proof.
  unfold clean_text. apply splitlines_join.
  unfold clean_lines. apply Forall_forall. intros l Hin.
  apply in_map_iff in Hin as (l0 & <- & Hin0).
  apply filter_In in Hin0 as [Hin0 Hne]. split.
  - intros E. rewrite E in Hne. discriminate.
  - apply strip_no_break.
    pose proof (splitlines_no_break text) as Hall.
    rewrite Forall_forall in Hall. apply Hall. assumption.
Qed.


End CleanFacts.



(** The sample page, cleaned: two lines, the blank ones gone, the three
    spaces inside the second line still there. *)
Example clean_text_sample :
  clean_text (get_text Demo.lib sample_page)
  = lit "Boiling point" ++ [LF] ++ lit "Water boils   at 100 C.".
Proof. vm_compute. reflexivity. Qed.

(* ================================================================== *)
(** * More about the cleaned text *)
(* ================================================================== *)

Module CleanMore.

Import StrFacts CleanFacts.

Lemma lstrip_trimmed (s : str) : trimmed s -> lstrip s = s.
Proof.
  intros [Hhead _]. destruct s as [|c s]; [reflexivity|]. simpl.
  rewrite (Hhead c s eq_refl). reflexivity.
Qed.

Lemma trimmed_rev (s : str) : trimmed s -> trimmed (rev s).
Proof.
  intros [Hhead Hlast]. split; intros c s' E.
  - apply (Hlast c (rev s')).
    rewrite <- (rev_involutive s), E. reflexivity.
  - destruct s as [|d s]; [destruct s'; discriminate|].
    simpl in E. apply app_inj_tail in E as [_ <-]. apply (Hhead d s eq_refl).
Qed.

Lemma strip_of_trimmed (s : str) : trimmed s -> strip s = s.
Proof.
  intros H. unfold strip, rstrip. rewrite (lstrip_trimmed H).
  rewrite (lstrip_trimmed (trimmed_rev H)). apply rev_involutive.
Qed.

Lemma clean_lines_fixed (ls : list str) :
  Forall (fun l => l <> [] /\ trimmed l) ls ->
  map strip (filter (fun line => nonempty (strip line)) ls) = ls.
Proof.
  induction 1 as [|l ls [Hne Htr] _ IH]; [reflexivity|]. simpl.
  rewrite (strip_of_trimmed Htr).
  destruct l; [contradiction|]. simpl. rewrite IH.
  f_equal. apply (strip_of_trimmed Htr).
Qed.

Lemma clean_lines_trimmed (text : str) :
  Forall (fun l => l <> [] /\ trimmed l) (clean_lines text).
Proof.
  unfold clean_lines. apply Forall_forall. intros l Hin.
  apply in_map_iff in Hin as (l0 & <- & Hin0).
  apply filter_In in Hin0 as [_ Hne]. split.
  - intros E. rewrite E in Hne. discriminate.
  - apply strip_trimmed.
Qed.

Lemma join_head sep (l : str) ls c s' :
  l <> [] -> join sep (l :: ls) = c :: s' -> exists l', l = c :: l'.
Proof.
  intros Hne E. destruct l as [|d l]; [contradiction|].
  exists l. destruct ls; simpl in E; injection E as -> _; reflexivity.
Qed.

Lemma join_last sep (ls : list str) c s' :
  Forall (fun l => l <> []) ls ->
  join sep ls = s' ++ [c] ->
  exists l l', In l ls /\ l = l' ++ [c].
Proof.
  intros H. revert s'. induction H as [|l ls Hne Hls IH]; intros s' E.
  - destruct s'; discriminate.
  - destruct ls as [|l2 ls].
    + simpl in E. exists l, s'. split; [left; reflexivity | exact E].
    + change (join sep (l :: l2 :: ls)) with (l ++ sep ++ join sep (l2 :: ls)) in E.
      assert (Hj : join sep (l2 :: ls) <> []).
      { inversion Hls as [|? ? Hl2 _]; subst.
        destruct l2; [contradiction|]. destruct ls; discriminate. }
      destruct (exists_last Hj) as (j & d & Ej).
      rewrite Ej, !app_assoc in E. apply app_inj_tail in E as [_ <-].
      destruct (IH _ Ej) as (l0 & l' & Hin & El).
      exists l0, l'. split; [right; exact Hin | exact El].
Qed.

Lemma join_breaks (ls : list str) :
  Forall no_break ls ->
  Forall (fun c => is_linebreak c = true -> c = LF) (join [LF] ls).
Proof.
  induction 1 as [|l ls Hl Hls IH]; [constructor|].
  assert (Hl' : Forall (fun c => is_linebreak c = true -> c = LF) l).
  { eapply Forall_impl; [|exact Hl]. simpl. intros c E E'. congruence. }
  destruct ls as [|l2 ls]; [exact Hl'|].
  change (join [LF] (l :: l2 :: ls)) with (l ++ [LF] ++ join [LF] (l2 :: ls)).
  apply Forall_app. split; [exact Hl'|].
  apply Forall_app. split; [|exact IH]. constructor; [reflexivity | constructor].
Qed.

Lemma clean_lines_no_break (text : str) : Forall no_break (clean_lines text).
Proof.
  unfold clean_lines. apply Forall_forall. intros l Hin.
  apply in_map_iff in Hin as (l0 & <- & Hin0).
  apply filter_In in Hin0 as [Hin0 _]. apply strip_no_break.
  pose proof (splitlines_no_break text) as Hall.
  rewrite Forall_forall in Hall. apply Hall. exact Hin0.
Qed.

End CleanMore.

(** X1.  Cleaning is idempotent: text that [scrape_website_content] has
    cleaned comes back unchanged when cleaned again. *)
Theorem clean_text_idempotent (text : str) :
  clean_text (clean_text text) = clean_text text.
Proof.
  unfold clean_text at 1 3. f_equal. unfold clean_lines at 1.
  change (splitlines (join [LF] (clean_lines text)))
    with (splitlines (clean_text text)).
  rewrite CleanFacts.splitlines_clean_text.
  apply CleanMore.clean_lines_fixed, CleanMore.clean_lines_trimmed.
Qed.

(** X2.  The cleaned text neither starts nor ends with whitespace, and
    the only line boundary left in it is the newline that joins two
    lines (no carriage return, form feed or Unicode line separator). *)
Theorem clean_text_shape (text : str) :
  trimmed (clean_text text) /\
  Forall (fun c => is_linebreak c = true -> c = LF) (clean_text text).
Proof.
  split; [|apply CleanMore.join_breaks, CleanMore.clean_lines_no_break].
  pose proof (CleanMore.clean_lines_trimmed text) as H.
  unfold clean_text. split; intros c s' E.
  - destruct (clean_lines text) as [|l ls]; [discriminate|].
    inversion H as [|? ? [Hne [Hhead _]] _]; subst.
    destruct (@CleanMore.join_head _ _ _ _ _ Hne E) as (l' & ->).
    apply (Hhead c l' eq_refl).
  - assert (Hne : Forall (fun l => l <> []) (clean_lines text)).
    { eapply Forall_impl; [|exact H]. simpl. tauto. }
    destruct (@CleanMore.join_last _ _ _ _ Hne E) as (l & l' & Hin & ->).
    rewrite Forall_forall in H. destruct (H _ Hin) as [_ [_ Hlast]].
    apply (Hlast c l' eq_refl).
Qed.

Module CleanSize.

Import StrFacts CleanFacts.

Lemma linebreak_is_space (c : N) : is_linebreak c = true -> is_space c = true.
Proof.
  unfold is_linebreak, is_space.
  rewrite !orb_true_iff, !andb_true_iff, !N.leb_le, !N.eqb_eq. lia.
Qed.

Lemma blank_app (a b : str) : blank (a ++ b) = blank a && blank b.
Proof. apply forallb_app. Qed.

(** The lines are all blank exactly when the text is. *)
Lemma splitlines_from_blank (s cur : str) :
  Forall (fun l => blank l = true) (splitlines_from cur s)
  <-> blank (rev cur ++ s) = true.
Proof.
  revert cur. induction s as [s IH] using (induction_ltof1 _ (@List.length N)).
  unfold ltof in IH. intros cur. destruct s as [|c rest].
  - rewrite app_nil_r. simpl. destruct cur as [|x cur].
    + split; [reflexivity | constructor].
    + split.
      * intros H. inversion H; assumption.
      * intros H. constructor; [assumption | constructor].
  - cbn [splitlines_from]. destruct (is_linebreak c) eqn:E.
    + pose proof (linebreak_is_space c E) as Hc.
      rewrite blank_app. cbn [blank forallb]. fold (blank rest). rewrite Hc.
      cbn [andb].
      assert (Hrest : Forall (fun l => blank l = true)
                (match rest with
                 | d :: rest' =>
                     if ((c =? CR)%N && (d =? LF)%N)
                     then splitlines_from [] rest'
                     else splitlines_from [] rest
                 | [] => splitlines_from [] rest
                 end) <-> blank rest = true).
      { destruct rest as [|d rest'].
        - simpl. split; [reflexivity | constructor].
        - destruct ((c =? CR)%N && (d =? LF)%N) eqn:Ecr.
          + apply andb_true_iff in Ecr as [_ Ed]. apply N.eqb_eq in Ed. subst d.
            rewrite (IH rest') by (simpl; lia). simpl. reflexivity.
          + apply (IH (d :: rest')). simpl. lia. }
      split.
      * intros H. inversion H as [|? ? H1 H2]; subst.
        apply andb_true_iff. split; [exact H1 | apply Hrest; exact H2].
      * intros H. apply andb_true_iff in H as [H1 H2].
        constructor; [exact H1 | apply Hrest; exact H2].
    + rewrite (IH rest) by (simpl; lia). simpl rev.
      rewrite <- app_assoc. reflexivity.
Qed.

Lemma filter_nil_iff {A} (p : A -> bool) (l : list A) :
  filter p l = [] <-> Forall (fun x => p x = false) l.
Proof.
  induction l as [|x l IH]; simpl.
  - split; [constructor | reflexivity].
  - destruct (p x) eqn:E.
    + split; [discriminate|]. intros H. inversion H; congruence.
    + rewrite IH. split.
      * intros H. constructor; assumption.
      * intros H. inversion H; assumption.
Qed.

Lemma join_nil sep (ls : list str) :
  Forall (fun l => l <> []) ls -> join sep ls = [] -> ls = [].
Proof.
  intros H E. destruct ls as [|l ls]; [reflexivity|].
  inversion H as [|? ? Hne _]; subst.
  destruct l; [contradiction|]. destruct ls; discriminate.
Qed.

(** Every line costs its characters and one more for its boundary. *)
Lemma splitlines_from_weight (s cur : str) :
  weight (splitlines_from cur s) <= S (List.length cur + List.length s).
Proof.
  unfold weight. revert cur.
  induction s as [s IH] using (induction_ltof1 _ (@List.length N)).
  unfold ltof in IH. intros cur. destruct s as [|c rest].
  - simpl. destruct cur; simpl; [lia|]. rewrite length_app, length_rev. simpl. lia.
  - cbn [splitlines_from]. destruct (is_linebreak c).
    + cbn [map list_sum]. rewrite length_rev.
      destruct rest as [|d rest'].
      * simpl. lia.
      * destruct ((c =? CR)%N && (d =? LF)%N).
        -- specialize (IH rest'). simpl in *. specialize (IH ltac:(lia) []).
           simpl in IH. lia.
        -- specialize (IH (d :: rest')). simpl in *. specialize (IH ltac:(lia) []).
           simpl in IH. lia.
    + specialize (IH rest). simpl in *. specialize (IH ltac:(lia) (c :: cur)).
      simpl in IH. lia.
Qed.

Lemma join_length (ls : list str) :
  ls <> [] -> S (List.length (join [LF] ls)) = weight ls.
Proof.
  unfold weight. induction ls as [|l ls IH]; [contradiction|]. intros _.
  destruct ls as [|l2 ls].
  - simpl. lia.
  - change (join [LF] (l :: l2 :: ls)) with (l ++ [LF] ++ join [LF] (l2 :: ls)).
    specialize (IH ltac:(discriminate)).
    remember (join [LF] (l2 :: ls)) as j eqn:Ej. clear Ej.
    rewrite !length_app. unfold list_sum in *.
    cbn [map fold_right List.length] in *. lia.
Qed.

Lemma strip_length (s : str) : List.length (strip s) <= List.length s.
Proof.
  destruct (strip_split s) as (a & b & E & _).
  rewrite E at 2. rewrite !length_app. lia.
Qed.

Lemma clean_lines_weight (ls : list str) :
  weight (map strip (filter (fun line => nonempty (strip line)) ls)) <= weight ls.
Proof.
  unfold weight. induction ls as [|l ls IH]; simpl; [lia|].
  destruct (nonempty (strip l)); simpl; pose proof (strip_length l); lia.
Qed.

End CleanSize.

(** X3.  The cleaned text is empty exactly when the text consists of
    whitespace only (the empty text included). *)
Theorem clean_text_empty_iff_blank (text : str) :
  clean_text text = [] <-> blank text = true.
Proof.
  rewrite <- (CleanSize.splitlines_from_blank text []).
  fold (splitlines text). split.
  - intros E.
    apply CleanSize.join_nil in E.
    2:{ eapply Forall_impl; [|apply CleanMore.clean_lines_trimmed]. simpl. tauto. }
    rewrite CleanFacts.clean_lines_blank in E. apply map_eq_nil in E.
    apply CleanSize.filter_nil_iff in E.
    eapply Forall_impl; [|exact E]. simpl. intros l. apply negb_false_iff.
  - intros H. unfold clean_text. rewrite CleanFacts.clean_lines_blank.
    replace (filter (fun line => negb (blank line)) (splitlines text)) with (@nil str);
      [reflexivity|].
    symmetry. apply CleanSize.filter_nil_iff.
    eapply Forall_impl; [|exact H]. simpl. intros l E. rewrite E. reflexivity.
Qed.

(** X4.  Cleaning never makes the text longer. *)
Theorem clean_text_not_longer (text : str) :
  List.length (clean_text text) <= List.length text.
Proof.
  unfold clean_text. destruct (clean_lines text) as [|l ls] eqn:E; [simpl; lia|].
  assert (H : S (List.length (join [LF] (l :: ls))) <= S (List.length text)).
  { rewrite CleanSize.join_length by discriminate. rewrite <- E.
    etransitivity; [apply CleanSize.clean_lines_weight|].
    apply (CleanSize.splitlines_from_weight text []). }
  lia.
Qed.

(* ================================================================== *)
(** * [load_config] and the constructors *)
(* ================================================================== *)

Section Config.

Variable lib : Lib.
Variable w : World.

Lemma env_get_set_same k v env : env_get k (env_set k v env) = Some v.
Proof.
  induction env as [|[k' v'] env IH]; simpl.
  - rewrite StrFacts.eqb_refl. reflexivity.
  - destruct (Str.eqb k' k) eqn:E; simpl.
    + rewrite StrFacts.eqb_refl. reflexivity.
    + rewrite E. exact IH.
Qed.

Lemma env_get_set_other k k' v env :
  k <> k' -> env_get k' (env_set k v env) = env_get k' env.
Proof.
  intros Hne.
  assert (Hk : Str.eqb k k' = false).
  { destruct (Str.eqb k k') eqn:E; [|reflexivity].
    apply StrFacts.eqb_eq in E. contradiction. }
  induction env as [|[k0 v0] env IH]; simpl.
  - rewrite Hk. reflexivity.
  - destruct (Str.eqb k0 k) eqn:E; simpl.
    + apply StrFacts.eqb_eq in E. subst k0. rewrite Hk. reflexivity.
    + rewrite IH. reflexivity.
Qed.

(** One assignment [os.environ[key] = value]. *)
Lemma environ_setitem_spec key value s s1 o :
  environ_setitem lib key value s = (s1, o) ->
  trace s1 = trace s /\ clock s1 = clock s /\
  match o with
  | Return _ =>
      exists a b, key = VStr a /\ value = VStr b /\
                  environ s1 = env_set a b (environ s)
  | Raise e =>
      environ s1 = environ s /\ (both_text key value = false -> e = TypeError)
  end.
Proof.
  unfold environ_setitem, raise. intros H.
  destruct key; try (injection H as <- <-; repeat split; reflexivity).
  destruct value; try (injection H as <- <-; repeat split; reflexivity).
  destruct (putenv_error lib s0 s2).
  - injection H as <- <-. repeat split. simpl. discriminate.
  - injection H as <- <-. repeat split. eauto.
Qed.

Lemma for_each_setitem_frame kvs : forall s s' o,
  for_each (fun kv => environ_setitem lib (fst kv) (snd kv)) kvs s = (s', o) ->
  trace s' = trace s /\ clock s' = clock s /\
  forall k, ~ In (VStr k) (map fst kvs) ->
    env_get k (environ s') = env_get k (environ s).
Proof.
  induction kvs as [|[key value] kvs IH]; intros s s' o H.
  - injection H as <- _. auto.
  - cbn [for_each] in H. unfold bind in H.
    destruct (environ_setitem lib _ _ s) as [s1 [u|e]] eqn:E;
      apply environ_setitem_spec in E as (T & C & E); cbn [fst snd] in E.
    + destruct (IH _ _ _ H) as (T' & C' & G).
      destruct E as (a & b & -> & -> & Eenv).
      split; [congruence|]. split; [congruence|].
      intros k Hk. rewrite G.
      * rewrite Eenv. apply env_get_set_other.
        intros <-. apply Hk. left. reflexivity.
      * intros Hin. apply Hk. right. exact Hin.
    + injection H as <- _. destruct E as [E _].
      split; [assumption|]. split; [assumption|]. intros k _. rewrite E. reflexivity.
Qed.

Lemma for_each_setitem_sets kvs : forall s s',
  for_each (fun kv => environ_setitem lib (fst kv) (snd kv)) kvs s
    = (s', Return tt) ->
  NoDup (map fst kvs) ->
  forall k v, In (VStr k, VStr v) kvs -> env_get k (environ s') = Some v.
Proof.
  induction kvs as [|[key value] kvs IH]; intros s s' H Hnd k v Hin.
  - destruct Hin.
  - cbn [for_each] in H. unfold bind in H.
    destruct (environ_setitem lib _ _ s) as [s1 [u|e]] eqn:E; [|discriminate].
    apply environ_setitem_spec in E as (_ & _ & a & b & Ea & Eb & Eenv).
    cbn [fst snd] in *. subst key value.
    inversion Hnd as [|? ? Hnotin Hnd']; subst.
    destruct Hin as [Hin|Hin].
    + injection Hin as <- <-.
      destruct (for_each_setitem_frame _ _ H) as (_ & _ & G).
      rewrite (G a Hnotin), Eenv. apply env_get_set_same.
    + eapply IH; eassumption.
Qed.

End Config.

(** X5.  When [load_config] returns, every entry of the configuration
    file is in [os.environ] under its name. *)
Theorem load_config_sets_environ lib w path kvs s s' k v :
  yaml_file w path = Return (VDict kvs) ->
  NoDup (map fst kvs) ->
  load_config lib w path s = (s', Return tt) ->
  In (VStr k, VStr v) kvs ->
  env_get k (environ s') = Some v.
Proof.
  intros Hy Hnd H Hin. unfold load_config, bind, lift in H. rewrite Hy in H.
  cbn [items] in H. eapply for_each_setitem_sets; eassumption.
Qed.

Lemma load_config_sets_environ_witness :
  env_get (lit "SERPER_DEV_API_KEY")
    (environ (fst (load_config Demo.lib never_satisfied (lit "config.yaml") Demo.start)))
  = Some (lit "serper-test").
Proof.
  apply (@load_config_sets_environ Demo.lib never_satisfied (lit "config.yaml")
           [(vstr "OPENAI_API_KEY", vstr "sk-test");
            (vstr "SERPER_DEV_API_KEY", vstr "serper-test")]
           Demo.start _ (lit "SERPER_DEV_API_KEY") (lit "serper-test")).
  - reflexivity.
  - repeat constructor; simpl; intros H; repeat destruct H as [H|H];
      try (vm_compute in H; discriminate H); exact H.
  - reflexivity.
  - right. left. reflexivity.
Defined.

(** X6.  However [load_config] ends, it puts nothing on the trace, sends
    no request, and leaves alone every variable that the configuration
    file does not name (all of them when the file cannot be read or does
    not hold a mapping). *)
Theorem load_config_frame lib w path s s' o k :
  load_config lib w path s = (s', o) ->
  (forall kvs, yaml_file w path = Return (VDict kvs) ->
               ~ In (VStr k) (map fst kvs)) ->
  trace s' = trace s /\ clock s' = clock s /\
  env_get k (environ s') = env_get k (environ s).
Proof.
  intros H Hk. unfold load_config, bind, lift in H.
  destruct (yaml_file w path) as [config|e].
  2:{ injection H as <- _. auto. }
  destruct config; cbn [items] in H;
    try (injection H as <- _; repeat split; reflexivity).
  destruct (for_each_setitem_frame _ _ _ H) as (T & C & G).
  repeat split; try assumption. apply G. apply Hk. reflexivity.
Qed.

Lemma load_config_frame_witness :
  let s := at_request 3 in
  let s' := fst (load_config Demo.lib config_with_number (lit "config.yaml") s) in
  trace s' = trace s /\ clock s' = clock s /\
  env_get (lit "PATH") (environ s') = env_get (lit "PATH") (environ s).
Proof.
  intros s s'.
  apply (@load_config_frame Demo.lib config_with_number (lit "config.yaml") s s'
           (snd (load_config Demo.lib config_with_number (lit "config.yaml") s))
           (lit "PATH")).
  - apply surjective_pairing.
  - intros kvs H. injection H as <-. simpl. intros H; repeat destruct H as [H|H];
      try (vm_compute in H; discriminate H); exact H.
Defined.

(** X7.  [load_config] stops at the first entry whose name or value is
    not text: it raises [TypeError], the entries before it are set and
    the entries after it are not looked at. *)
Theorem load_config_stops_at_bad_entry lib w path before key value after s :
  yaml_file w path = Return (VDict (text_items before ++ (key, value) :: after)) ->
  Forall (fun kv => putenv_error lib (fst kv) (snd kv) = None) before ->
  both_text key value = false ->
  snd (load_config lib w path s) = Raise TypeError /\
  environ (fst (load_config lib w path s)) = set_pairs before (environ s).
Proof.
  intros Hy Hok Hbad.
  assert (H : forall s,
    for_each (fun kv => environ_setitem lib (fst kv) (snd kv))
      (text_items before ++ (key, value) :: after) s
    = ({| environ := set_pairs before (environ s); clock := clock s;
          trace := trace s |}, Raise TypeError)).
  { clear Hy. induction Hok as [|[a b] before Ha _ IH]; intros s0.
    - cbn [text_items map app for_each]. unfold bind, environ_setitem.
      cbn [fst snd set_pairs fold_left]. destruct s0 as [env c t]. cbn [environ clock trace].
      destruct key; try reflexivity. destruct value; try reflexivity. discriminate.
    - cbn [text_items map app for_each fst snd] in *. unfold bind, environ_setitem.
      cbn [fst snd]. rewrite Ha. cbn beta iota. rewrite IH. reflexivity. }
  unfold load_config, bind, lift. rewrite Hy. cbn [items]. rewrite H.
  split; reflexivity.
Qed.

Lemma load_config_stops_at_bad_entry_witness :
  let run := load_config Demo.lib config_with_number (lit "config.yaml") Demo.start in
  snd run = Raise TypeError /\
  environ (fst run)
  = set_pairs [(lit "OPENAI_API_KEY", lit "sk-test")] (environ Demo.start).
Proof.
  apply (@load_config_stops_at_bad_entry Demo.lib config_with_number
           (lit "config.yaml") [(lit "OPENAI_API_KEY", lit "sk-test")]
           (vstr "SERPER_DEV_API_KEY") (VInt 12345)
           (text_items [(lit "MODEL", lit "gpt-4")]) Demo.start).
  - reflexivity.
  - repeat constructor.
  - reflexivity.
Defined.

(** X8.  A [WebSearcher] built while the configuration file holds
    [OPENAI_API_KEY] carries that key, the completion endpoint, the model
    and the verbosity it was given, and the two headers with the key as
    bearer token. *)
Theorem WebSearcher_init_from_config lib w kvs k model verbose s s' search :
  yaml_file w (lit "config.yaml") = Return (VDict kvs) ->
  NoDup (map fst kvs) ->
  In (vstr "OPENAI_API_KEY", VStr k) kvs ->
  WebSearcher_init lib w model verbose s = (s', Return search) ->
  search = {| ws_api_key := VStr k;
              ws_url := lit "https://api.openai.com/v1/chat/completions";
              ws_headers := [ (lit "Content-Type", lit "application/json");
                              (lit "Authorization", lit "Bearer " ++ k) ];
              ws_model := model;
              ws_verbose := verbose |}.
Proof.
  intros Hy Hnd Hin H. unfold WebSearcher_init, bind in H.
  destruct (load_config lib w (lit "config.yaml") s) as [s1 [[]|e]] eqn:E;
    [|discriminate].
  unfold load_config, bind, lift in E. rewrite Hy in E. cbn [items] in E.
  pose proof (for_each_setitem_sets _ _ _ E Hnd _ _ Hin) as G.
  unfold getenv, ret in H. rewrite G in H. injection H as _ <-. reflexivity.
Qed.

Lemma WebSearcher_init_from_config_witness :
  snd (WebSearcher_init Demo.lib never_satisfied (vstr "gpt-3.5-turbo") (VBool false)
         Demo.start)
  = Return {| ws_api_key := vstr "sk-test";
              ws_url := lit "https://api.openai.com/v1/chat/completions";
              ws_headers := [ (lit "Content-Type", lit "application/json");
                              (lit "Authorization", lit "Bearer " ++ lit "sk-test") ];
              ws_model := vstr "gpt-3.5-turbo";
              ws_verbose := VBool false |}.
Proof.
  destruct (WebSearcher_init Demo.lib never_satisfied (vstr "gpt-3.5-turbo")
              (VBool false) Demo.start) as [s' [search|e]] eqn:E;
    [|vm_compute in E; discriminate E].
  cbn [snd]. f_equal.
  apply (@WebSearcher_init_from_config Demo.lib never_satisfied
           [(vstr "OPENAI_API_KEY", vstr "sk-test");
            (vstr "SERPER_DEV_API_KEY", vstr "serper-test")]
           (lit "sk-test") (vstr "gpt-3.5-turbo") (VBool false) Demo.start s' search).
  - reflexivity.
  - repeat constructor; simpl; intros H; repeat destruct H as [H|H];
      try (vm_compute in H; discriminate H); exact H.
  - left. reflexivity.
  - exact E.
Defined.

(** X9.  An [Agent] built while the configuration file holds
    [OPENAI_API_KEY] carries that key as bearer token, the completion
    endpoint, and every argument of the constructor in its field. *)
Theorem Agent_init_from_config lib w kvs k m doc temp tokens planning integration
    vb s s' agent :
  yaml_file w (lit "config.yaml") = Return (VDict kvs) ->
  NoDup (map fst kvs) ->
  In (vstr "OPENAI_API_KEY", VStr k) kvs ->
  Agent_init lib w m doc temp tokens planning integration vb s
    = (s', Return agent) ->
  agent = {| api_key := VStr k;
             url := lit "https://api.openai.com/v1/chat/completions";
             headers := [ (lit "Content-Type", lit "application/json");
                          (lit "Authorization", lit "Bearer " ++ k) ];
             temperature := temp;
             max_tokens := tokens;
             tool_specs := doc;
             planning_agent_prompt := planning;
             integration_agent_prompt := integration;
             model := m;
             verbose := vb |}.
Proof.
  intros Hy Hnd Hin H. unfold Agent_init, bind in H.
  destruct (load_config lib w (lit "config.yaml") s) as [s1 [[]|e]] eqn:E;
    [|discriminate].
  unfold load_config, bind, lift in E. rewrite Hy in E. cbn [items] in E.
  pose proof (for_each_setitem_sets _ _ _ E Hnd _ _ Hin) as G.
  unfold getenv, ret in H. rewrite G in H. injection H as _ <-. reflexivity.
Qed.

Lemma Agent_init_from_config_witness :
  snd (Agent_init Demo.lib never_satisfied (vstr "gpt-3.5-turbo")
         (vstr "A class that encapsulates methods for searching.")
         (VInt 0) (VInt 1000) VNone VNone (VBool false) Demo.start)
  = Return agent_without_prompts.
Proof.
  destruct (Agent_init Demo.lib never_satisfied (vstr "gpt-3.5-turbo")
              (vstr "A class that encapsulates methods for searching.")
              (VInt 0) (VInt 1000) VNone VNone (VBool false) Demo.start)
    as [s' [agent|e]] eqn:E; [|vm_compute in E; discriminate E].
  cbn [snd]. f_equal.
  apply (@Agent_init_from_config Demo.lib never_satisfied
           [(vstr "OPENAI_API_KEY", vstr "sk-test");
            (vstr "SERPER_DEV_API_KEY", vstr "serper-test")]
           (lit "sk-test") _ _ _ _ _ _ _ Demo.start s' agent).
  - reflexivity.
  - repeat constructor; simpl; intros H; repeat destruct H as [H|H];
      try (vm_compute in H; discriminate H); exact H.
  - left. reflexivity.
  - exact E.
Defined.

(* ================================================================== *)
(** * Structured replies *)
(* ================================================================== *)

Lemma seq_index_first {A} (x : A) (l : list A) : seq_index (x :: l) 0 = Some x.
Proof.
  unfold seq_index. cbn [List.length].
  replace ((0 <=? 0)%Z && (0 <? Z.of_nat (S (List.length l)))%Z) with true.
  - reflexivity.
  - symmetry. apply andb_true_iff. split; [reflexivity|]. apply Z.ltb_lt. lia.
Qed.

(** X10.  Of a structured reply only the first choice and its first tool
    call are read: the argument text of that call is decoded and the
    value under the asked field is returned, whatever other choices, tool
    calls and keys the reply holds. *)
Theorem structured_field_reads_first_call lib reply choice choices message
    call calls function arguments decoded field v :
  has_key reply "choices" (VList (VDict choice :: choices)) ->
  has_key choice "message" (VDict message) ->
  has_key message "tool_calls" (VList (VDict call :: calls)) ->
  has_key call "function" (VDict function) ->
  has_key function "arguments" (VStr arguments) ->
  json_loads lib arguments = Return (VDict decoded) ->
  dict_find (fun k => key_eq_str k field) decoded = Some v ->
  structured_field lib (VDict reply) field = Return v.
Proof.
  unfold has_key, structured_field. intros H1 H2 H3 H4 H5 H6 H7.
  cbn [getitem_key obind]. rewrite H1. cbn [obind getitem_int].
  rewrite seq_index_first. cbn [obind getitem_key]. rewrite H2.
  cbn [obind getitem_key]. rewrite H3. cbn [obind getitem_int].
  rewrite seq_index_first. cbn [obind getitem_key]. rewrite H4.
  cbn [obind getitem_key]. rewrite H5. cbn [obind loads]. rewrite H6.
  cbn [obind getitem_key]. rewrite H7. reflexivity.
Qed.

Lemma structured_field_reads_first_call_witness :
  structured_field Demo.lib
    (Demo.completion "text" (Demo.flat "best_search_page" "https://example.com/boiling"))
    (lit "best_search_page")
  = Return (vstr "https://example.com/boiling").
Proof.
  eapply (@structured_field_reads_first_call Demo.lib _ _ [] _ _ []).
  - reflexivity.
  - vm_compute. reflexivity.
  - vm_compute. reflexivity.
  - vm_compute. reflexivity.
  - vm_compute. reflexivity.
  - vm_compute. reflexivity.
  - vm_compute. reflexivity.
Defined.

(** X11.  A reply without choices, a message without tool calls and
    decoded arguments without the asked field each make the extraction
    raise: [IndexError] for the empty list of choices, [KeyError] for the
    two missing keys. *)
Theorem structured_field_malformed lib reply field :
  (has_key reply "choices" (VList []) ->
   structured_field lib (VDict reply) field = Raise IndexError) /\
  (forall choice choices message,
     has_key reply "choices" (VList (VDict choice :: choices)) ->
     has_key choice "message" (VDict message) ->
     lacks_key message "tool_calls" ->
     structured_field lib (VDict reply) field
     = Raise (KeyError (py_repr lib (vstr "tool_calls")))) /\
  (forall choice choices message call calls function arguments decoded,
     has_key reply "choices" (VList (VDict choice :: choices)) ->
     has_key choice "message" (VDict message) ->
     has_key message "tool_calls" (VList (VDict call :: calls)) ->
     has_key call "function" (VDict function) ->
     has_key function "arguments" (VStr arguments) ->
     json_loads lib arguments = Return (VDict decoded) ->
     dict_find (fun k => key_eq_str k field) decoded = None ->
     structured_field lib (VDict reply) field
     = Raise (KeyError (py_repr lib (VStr field)))).
Proof.
  unfold has_key, lacks_key, structured_field. repeat split.
  - intros H1. cbn [getitem_key obind]. rewrite H1. reflexivity.
  - intros choice choices message H1 H2 H3.
    cbn [getitem_key obind]. rewrite H1. cbn [obind getitem_int].
    rewrite seq_index_first. cbn [obind getitem_key]. rewrite H2.
    cbn [obind getitem_key]. rewrite H3. reflexivity.
  - intros choice choices message call calls function arguments decoded
      H1 H2 H3 H4 H5 H6 H7.
    cbn [getitem_key obind]. rewrite H1. cbn [obind getitem_int].
    rewrite seq_index_first. cbn [obind getitem_key]. rewrite H2.
    cbn [obind getitem_key]. rewrite H3. cbn [obind getitem_int].
    rewrite seq_index_first. cbn [obind getitem_key]. rewrite H4.
    cbn [obind getitem_key]. rewrite H5. cbn [obind loads]. rewrite H6.
    cbn [obind getitem_key]. rewrite H7. reflexivity.
Qed.

Lemma structured_field_malformed_witness :
  structured_field Demo.lib (obj [("choices", VList [])]) (lit "meets_requirements")
  = Raise IndexError /\
  structured_field Demo.lib
    (obj [("choices", VList [obj [("message", obj [("content", vstr "yes")])]])])
    (lit "meets_requirements")
  = Raise (KeyError (py_repr Demo.lib (vstr "tool_calls"))) /\
  structured_field Demo.lib
    (Demo.completion "" (Demo.flat "verdict" "yes")) (lit "meets_requirements")
  = Raise (KeyError (py_repr Demo.lib (vstr "meets_requirements"))).
Proof.
  split; [|split].
  - apply (proj1 (@structured_field_malformed Demo.lib
                    [(vstr "choices", VList [])] (lit "meets_requirements"))).
    reflexivity.
  - eapply (proj1 (proj2 (@structured_field_malformed Demo.lib _
                            (lit "meets_requirements"))) _ []);
      vm_compute; reflexivity.
  - eapply (proj2 (proj2 (@structured_field_malformed Demo.lib _
                            (lit "meets_requirements"))) _ [] _ _ []);
      vm_compute; reflexivity.
Defined.

(* ================================================================== *)
(** * Failures that are not caught *)
(* ================================================================== *)

(** X12.  The two completion calls of the tool have no [try]: when the
    request of [generate_searches] or of [get_search_page] raises, the
    method raises the same exception. *)
Theorem tool_completion_failure_propagates lib w self plan query results s e :
  (http w (clock s) (generate_searches_request lib self plan query) = Raise e ->
   snd (generate_searches lib w self plan query s) = Raise e) /\
  (http w (clock s) (get_search_page_request lib self results plan query) = Raise e ->
   snd (get_search_page lib w self results plan query s) = Raise e).
Proof.
  split; intros H.
  - unfold generate_searches, bind, enter, log, send. cbn [clock]. rewrite H.
    reflexivity.
  - unfold get_search_page, bind, enter, log, send. cbn [clock]. rewrite H.
    reflexivity.
Qed.

Lemma tool_completion_failure_propagates_witness :
  snd (generate_searches Demo.lib completions_down searcher (vstr "look it up")
         (vstr "boiling point?") (at_request 1))
  = Raise (RequestException (lit "Connection refused.")) /\
  snd (get_search_page Demo.lib completions_down searcher (vstr "Title: Boiling point")
         (vstr "look it up") (vstr "boiling point?") (at_request 1))
  = Raise (RequestException (lit "Connection refused.")).
Proof.
  destruct (@tool_completion_failure_propagates Demo.lib completions_down searcher
              (vstr "look it up") (vstr "boiling point?")
              (vstr "Title: Boiling point") (at_request 1)
              (RequestException (lit "Connection refused."))) as [H1 H2].
  split; [apply H1 | apply H2]; reflexivity.
Defined.

(** X13.  The three completion calls of the agent have no [try] either:
    once the prompt is formatted, an exception raised by the request
    comes out of [run_planning_agent], [run_integration_agent] and
    [check_response] as it is. *)
Theorem agent_completion_failure_propagates lib w self query plan outputs feedback
    response prompt s e :
  (format lib (planning_agent_prompt self)
     [("outputs", outputs); ("plan", plan); ("feedback", feedback);
      ("tool_specs", tool_specs self)] = Return prompt ->
   http w (clock s) (free_text_request self query prompt) = Raise e ->
   snd (run_planning_agent lib w self query plan outputs feedback s) = Raise e) /\
  (format lib (integration_agent_prompt self)
     [("outputs", outputs); ("plan", plan)] = Return prompt ->
   http w (clock s) (free_text_request self query prompt) = Raise e ->
   snd (run_integration_agent lib w self query plan outputs s) = Raise e) /\
  (http w (clock s) (check_response_request lib self response query) = Raise e ->
   snd (check_response lib w self response query s) = Raise e).
Proof.
  repeat split.
  - intros Hf H. unfold run_planning_agent, bind, enter, log, lift, send.
    cbn [clock]. rewrite Hf. cbn [clock]. rewrite H. reflexivity.
  - intros Hf H. unfold run_integration_agent, bind, enter, log, lift, send.
    cbn [clock]. rewrite Hf. cbn [clock]. rewrite H. reflexivity.
  - intros H. unfold check_response, bind, enter, log, send.
    cbn [clock]. rewrite H. reflexivity.
Qed.

Lemma agent_completion_failure_propagates_witness :
  snd (run_planning_agent Demo.lib completions_down Demo.agent (vstr "boiling point?")
         VNone VNone VNone (at_request 0))
  = Raise (RequestException (lit "Connection refused.")) /\
  snd (run_integration_agent Demo.lib completions_down Demo.agent
         (vstr "boiling point?") (vstr "look it up") VNone (at_request 0))
  = Raise (RequestException (lit "Connection refused.")) /\
  snd (check_response Demo.lib completions_down Demo.agent (vstr "100 C")
         (vstr "boiling point?") (at_request 0))
  = Raise (RequestException (lit "Connection refused.")).
Proof.
  split; [|split].
  - apply (proj1 (@agent_completion_failure_propagates Demo.lib completions_down
                    Demo.agent (vstr "boiling point?") VNone VNone VNone VNone
                    (lit "Plan the next step.") (at_request 0)
                    (RequestException (lit "Connection refused."))));
      reflexivity.
  - apply (proj1 (proj2 (@agent_completion_failure_propagates Demo.lib
                    completions_down Demo.agent (vstr "boiling point?")
                    (vstr "look it up") VNone VNone VNone
                    (lit "Write the answer.") (at_request 0)
                    (RequestException (lit "Connection refused.")))));
      reflexivity.
  - apply (proj2 (proj2 (@agent_completion_failure_propagates Demo.lib
                    completions_down Demo.agent (vstr "boiling point?")
                    VNone VNone VNone (vstr "100 C")
                    [] (at_request 0)
                    (RequestException (lit "Connection refused.")))));
      reflexivity.
Defined.

(** X14.  Without [SERPER_DEV_API_KEY] in the environment
    [fetch_search_results] raises [KeyError] before its [try]: no request
    is sent, and none of the [except] clauses turns the error into
    text. *)
Theorem fetch_search_results_without_key lib w self search_queries s :
  env_get (lit "SERPER_DEV_API_KEY") (environ s) = None ->
  fetch_search_results lib w self search_queries s
  = ({| environ := environ s; clock := clock s;
        trace := trace s ++ [Called fetch_search_results_] |},
     Raise (KeyError (py_repr lib (vstr "SERPER_DEV_API_KEY")))).
Proof.
  intros H. unfold fetch_search_results, bind, enter, log, environ_getitem.
  cbn [environ]. rewrite H. reflexivity.
Qed.

Lemma fetch_search_results_without_key_witness :
  fetch_search_results Demo.lib never_satisfied searcher (vstr "boiling") Demo.start
  = ({| environ := []; clock := 0; trace := [Called fetch_search_results_] |},
     Raise (KeyError (py_repr Demo.lib (vstr "SERPER_DEV_API_KEY")))).
Proof.
  apply (@fetch_search_results_without_key Demo.lib never_satisfied searcher
           (vstr "boiling") Demo.start).
  reflexivity.
Defined.

(* ================================================================== *)
(** * [format_results] *)
(* ================================================================== *)

Lemma result_string_of_dict lib d :
  exists block, result_string lib (VDict d) = Return block /\
    starts_with (lit "Title: ") block = true.
Proof.
  unfold result_string, dict_get.
  destruct (dict_find _ d) as [title|];
    destruct (dict_find (fun k' => key_eq_str k' (lit "link")) d) as [link|];
    destruct (dict_find (fun k' => key_eq_str k' (lit "snippet")) d) as [snippet|];
    cbn [obind]; eexists; (split; [reflexivity|]);
    apply (StrFacts.starts_with_app (lit "Title: ") (lit "Title: ")); reflexivity.
Qed.

Lemma result_string_not_dict lib v :
  is_dict v = false -> result_string lib v = Raise AttributeError.
Proof. destruct v; try discriminate; reflexivity. Qed.

Lemma omap_result_string lib rs :
  if forallb is_dict rs
  then exists blocks, omap (result_string lib) rs = Return blocks /\
         List.length blocks = List.length rs /\
         Forall (fun block => starts_with (lit "Title: ") block = true) blocks
  else omap (result_string lib) rs = Raise AttributeError.
Proof.
  induction rs as [|r rs IH]; cbn [forallb omap].
  - exists []. repeat split. constructor.
  - destruct (is_dict r) eqn:Er; cbn [andb].
    + destruct r; try discriminate.
      destruct (result_string_of_dict lib d) as (block & Eb & Hb). rewrite Eb.
      cbn [obind]. destruct (forallb is_dict rs).
      * destruct IH as (blocks & E & Hlen & Hall). rewrite E. cbn [obind].
        exists (block :: blocks). repeat split; [simpl; congruence|].
        constructor; assumption.
      * rewrite IH. reflexivity.
    + rewrite (result_string_not_dict lib r Er). reflexivity.
Qed.

Lemma format_results_raises lib v e :
  format_results lib v = Raise e -> e = TypeError \/ e = AttributeError.
Proof.
  unfold format_results. destruct (iterate v) as [rs|e'] eqn:Ei; cbn [obind].
  - assert (H : forall e0, omap (result_string lib) rs = Raise e0 ->
                           e0 = AttributeError).
    { clear. induction rs as [|r rs IH]; cbn [omap]; intros e0 H; [discriminate|].
      unfold result_string at 1 in H. unfold dict_get in H.
      destruct r; cbn [obind] in H; try (injection H as <-; reflexivity).
      destruct (dict_find _ d); destruct (dict_find (fun k' => key_eq_str k' (lit "link")) d);
        destruct (dict_find (fun k' => key_eq_str k' (lit "snippet")) d);
        cbn [obind] in H;
        (destruct (omap (result_string lib) rs) eqn:E; cbn [obind] in H;
         [discriminate | injection H as <-; apply IH; reflexivity]). }
    destruct (omap (result_string lib) rs) eqn:E; cbn [obind]; [discriminate|].
    intros [= <-]. right. apply H. reflexivity.
  - intros [= <-]. left. destruct v; try discriminate; injection Ei as <-; reflexivity.
Qed.

(** X15.  For a list of results [format_results] returns a text exactly
    when every result is a [dict]; the text is then one block per result,
    joined by newlines, each block beginning with "Title: ".  With any
    other element in the list it raises [AttributeError]. *)
Theorem format_results_of_list lib rs :
  if forallb is_dict rs
  then exists blocks,
         format_results lib (VList rs) = Return (join [LF] blocks) /\
         List.length blocks = List.length rs /\
         Forall (fun block => starts_with (lit "Title: ") block = true) blocks
  else format_results lib (VList rs) = Raise AttributeError.
Proof.
  unfold format_results. cbn [iterate obind].
  pose proof (omap_result_string lib rs) as H.
  destruct (forallb is_dict rs).
  - destruct H as (blocks & E & Hlen & Hall). rewrite E. cbn [obind].
    exists blocks. auto.
  - rewrite H. reflexivity.
Qed.

(** X16.  When the provider's reply has an ["organic"] entry,
    [fetch_search_results] ends exactly as [format_results] ends on that
    entry: with its text, or with its [TypeError] or [AttributeError],
    which the [except] clauses of the method do not catch. *)
Theorem fetch_search_results_formats_organic lib w self search_queries s key d organic :
  env_get (lit "SERPER_DEV_API_KEY") (environ s) = Some key ->
  provider_replies (provider_answer w search_queries s key) (VDict d) ->
  has_key d "organic" organic ->
  snd (fetch_search_results lib w self search_queries s) = format_results lib organic.
Proof.
  intros Hkey Hr Hd. unfold has_key in Hd.
  rewrite (@fetch_reply lib w self search_queries s key Hkey (VDict d) Hr).
  cbn [contains_key obind]. rewrite existsb_key_find, Hd.
  cbn [getitem_key]. rewrite Hd. cbn [obind].
  destruct (format_results lib organic) as [text|e] eqn:E; [reflexivity|].
  destruct (format_results_raises _ _ E) as [-> | ->]; reflexivity.
Qed.

Lemma fetch_search_results_formats_organic_witness :
  snd (fetch_search_results Demo.lib
         (provider_says (obj [("organic", VList [vstr "not a result"])]))
         searcher (vstr "boiling") (at_request 2))
  = format_results Demo.lib (VList [vstr "not a result"]) /\
  format_results Demo.lib (VList [vstr "not a result"]) = Raise AttributeError.
Proof.
  split; [|reflexivity].
  apply (@fetch_search_results_formats_organic Demo.lib _ searcher (vstr "boiling")
           (at_request 2) (lit "serper-test")
           [(vstr "organic", VList [vstr "not a result"])]).
  - reflexivity.
  - eexists. repeat split.
  - reflexivity.
Defined.

(* ================================================================== *)
(** * The state after each method *)
(* ================================================================== *)

(** Splits on the innermost test of the run in [H]. *)
Ltac split_run H :=
  repeat match type of H with
         | context [match ?x with _ => _ end] =>
             lazymatch x with
             | context [match _ with _ => _ end] => fail
             | _ => destruct x eqn:?
             end
         end.

(** Closes a goal about the final state [s'] of the run in [H]. *)
Ltac end_run H :=
  first [ discriminate H
        | injection H as <- <-; unfold after_request; cbn [trace clock environ];
          repeat rewrite <- app_assoc; cbn [app]; auto ].

Section States.

Variable lib : Lib.
Variable w : World.

Lemma generate_searches_state self plan query s s' o :
  generate_searches lib w self plan query s = (s', o) ->
  s' = after_request s generate_searches_
         (generate_searches_request lib self plan query).
Proof.
  intros H. unfold generate_searches, bind, enter, log, lift, send, ret in H.
  cbn [clock trace environ] in H. split_run H; end_run H.
Qed.

Lemma get_search_page_state self results plan query s s' o :
  get_search_page lib w self results plan query s = (s', o) ->
  s' = after_request s get_search_page_
         (get_search_page_request lib self results plan query).
Proof.
  intros H. unfold get_search_page, bind, enter, log, lift, send, ret in H.
  cbn [clock trace environ] in H. split_run H; end_run H.
Qed.

Lemma scrape_website_content_state self website_url s s' o :
  scrape_website_content lib w self website_url s = (s', o) ->
  s' = after_request s scrape_website_content_
         (scrape_website_content_request website_url) /\
  forall v, o = Return v -> exists text, v = VDict [(website_url, VStr text)].
Proof.
  intros H.
  unfold scrape_website_content, try_except, bind, enter, log, send,
    raise_for_status, singleton_dict, raise, ret in H.
  cbn [clock trace environ] in H.
  split_run H; (split; [end_run H|]); intros v Hv; subst o;
    first [discriminate H | injection H as _ <-; eauto].
Qed.

Lemma fetch_search_results_state self queries s s' o :
  fetch_search_results lib w self queries s = (s', o) ->
  match env_get (lit "SERPER_DEV_API_KEY") (environ s) with
  | Some key =>
      s' = after_request s fetch_search_results_
             (fetch_search_results_request key queries)
  | None =>
      s' = {| environ := environ s; clock := clock s;
              trace := trace s ++ [Called fetch_search_results_] |} /\
      exists e, o = Raise e
  end.
Proof.
  intros H.
  unfold fetch_search_results, try_except, bind, enter, log, environ_getitem,
    send, raise_for_status, lift, raise, ret in H.
  cbn [clock trace environ] in H.
  destruct (env_get (lit "SERPER_DEV_API_KEY") (environ s)) as [key|].
  - split_run H; end_run H.
  - injection H as <- <-. eauto.
Qed.

Lemma WebSearcher_init_state model verbose s s' o :
  WebSearcher_init lib w model verbose s = (s', o) ->
  trace s' = trace s /\ clock s' = clock s /\
  forall search, o = Return search -> ws_model search = model.
Proof.
  intros H. unfold WebSearcher_init, bind, getenv, ret in H.
  destruct (load_config lib w (lit "config.yaml") s) as [s1 [u|e]] eqn:E.
  - unfold load_config, bind, lift in E.
    assert (T : trace s1 = trace s /\ clock s1 = clock s).
    { destruct (yaml_file w (lit "config.yaml")) as [config|e0];
        [|injection E as <- _; auto].
      destruct (items config) as [kvs|e0]; [|injection E as <- _; auto].
      destruct (for_each_setitem_frame _ _ _ E) as (T & C & _). auto. }
    injection H as <- <-. destruct T. repeat split; auto.
    intros search [= <-]. reflexivity.
  - injection H as <- <-.
    unfold load_config, bind, lift in E.
    destruct (yaml_file w (lit "config.yaml")) as [config|e0];
      [|injection E as <- _; repeat split; discriminate].
    destruct (items config) as [kvs|e0];
      [|injection E as <- _; repeat split; discriminate].
    destruct (for_each_setitem_frame _ _ _ E) as (T & C & _).
    repeat split; auto. discriminate.
Qed.

End States.



(* ================================================================== *)
(** * Requests and verdicts of a run *)
(* ================================================================== *)

Section Ticks.

Variable lib : Lib.
Variable w : World.
Variable self : Agent.

Lemma ticks_run_planning_agent query plan outputs feedback :
  ticks 1 (run_planning_agent lib w self query plan outputs feedback).
Proof.
  intros s s' o H.
  unfold run_planning_agent, bind, enter, log, lift, send, ret in H.
  cbn [clock trace environ] in H.
  split_run H; injection H as <- <-; cbn [clock];
    (split; [lia|]); intros ? Hret; first [discriminate Hret | lia].
Qed.

Lemma ticks_run_integration_agent query plan outputs :
  ticks 1 (run_integration_agent lib w self query plan outputs).
Proof.
  intros s s' o H.
  unfold run_integration_agent, bind, enter, log, lift, send, ret in H.
  cbn [clock trace environ] in H.
  split_run H; injection H as <- <-; cbn [clock];
    (split; [lia|]); intros ? Hret; first [discriminate Hret | lia].
Qed.

Lemma ticks_check_response response query :
  ticks 1 (check_response lib w self response query).
Proof.
  intros s s' o H.
  unfold check_response, bind, enter, log, lift, send, ret in H.
  cbn [clock trace environ] in H.
  split_run H; injection H as <- <-; cbn [clock];
    (split; [lia|]); intros ? Hret; first [discriminate Hret | lia].
Qed.

Lemma ticks_use_tool tool plan query : ticks 4 (use_tool lib w tool plan query).
Proof.
  intros s s' o H. unfold use_tool, bind, enter, log in H.
  destruct (WebSearcher_init lib w (ws_model tool) (VBool false) _)
    as [s1 [search|e]] eqn:E0;
    apply WebSearcher_init_state in E0 as (_ & C0 & _); cbn [clock] in C0.
  2:{ injection H as <- <-. split; [lia | discriminate]. }
  destruct (generate_searches lib w search plan query s1)
    as [s2 [search_queries|e]] eqn:E1; apply generate_searches_state in E1.
  2:{ injection H as <- <-. subst s2. cbn [after_request clock].
      split; [lia | discriminate]. }
  destruct (fetch_search_results lib w search search_queries s2)
    as [s3 [search_results|e]] eqn:E2; apply fetch_search_results_state in E2.
  2:{ injection H as <- <-. subst s2.
      destruct (env_get _ _); [|destruct E2 as [E2 _]]; subst s3;
        cbn [after_request clock]; (split; [lia | discriminate]). }
  destruct (env_get (lit "SERPER_DEV_API_KEY") (environ s2)) as [key|];
    [|destruct E2 as (_ & e & He); discriminate].
  destruct (get_search_page lib w search (VStr search_results) plan query s3)
    as [s4 [best_page|e]] eqn:E3; apply get_search_page_state in E3.
  2:{ injection H as <- <-. subst s4 s3 s2. cbn [after_request clock].
      split; [lia | discriminate]. }
  destruct (scrape_website_content lib w search best_page s4)
    as [s5 [results_dict|e]] eqn:E4;
    apply scrape_website_content_state in E4 as (E4 & _);
    injection H as <- <-; subst s5 s4 s3 s2; cbn [after_request clock];
    (split; [lia|]); intros ? Hret; first [discriminate Hret | lia].
Qed.

(** One induction over the rounds for the requests and the verdicts. *)
Lemma execute_loop_run tool query fuel : forall l s s' o,
  (iterations l <= 5)%Z ->
  execute_loop lib w fuel self tool query l s = (s', o) ->
  (Z.of_nat (clock s) <= Z.of_nat (clock s')
   <= Z.of_nat (clock s) + 7 * (5 - iterations l))%Z /\
  forall l', o = Return (Some l') ->
    Z.of_nat (clock s')
    = (Z.of_nat (clock s) + 7 * (iterations l' - iterations l))%Z /\
    exists evs, trace s' = trace s ++ evs /\
      ((l' = l /\ verdicts evs = [] /\
        negb (meets_requirements l) && (iterations l <? 5)%Z = false) \/
       (meets_requirements l = false /\
        exists k, verdicts evs = repeat false k ++ [meets_requirements l'])).
Proof.
  induction fuel as [|fuel IH]; intros l s s' o Hl H; simpl in H;
    destruct (negb (meets_requirements l) && (iterations l <? 5)%Z) eqn:C.
  - injection H as <- <-. split; [lia | discriminate].
  - injection H as <- <-. split; [lia|]. intros l' [= <-]. split; [lia|].
    exists []. rewrite app_nil_r. split; [reflexivity|]. left. auto.
  - apply andb_true_iff in C as [Cm C]. apply Z.ltb_lt in C.
    apply negb_true_iff in Cm.
    unfold bind in H.
    destruct (run_planning_agent _ _ _ _ _ _ _ s) as [s1 [plan1|e]] eqn:E1;
      destruct (ticks_run_planning_agent _ _ _ _ _ E1) as (B1 & X1);
      destruct (footprint_run_planning_agent lib w self _ _ _ _ _ E1)
        as (ev1 & T1 & _ & F1).
    2:{ injection H as <- <-. split; [lia | discriminate]. }
    destruct (use_tool _ _ _ _ _ s1) as [s2 [outputs1|e]] eqn:E2;
      destruct (ticks_use_tool _ _ _ _ E2) as (B2 & X2);
      destruct (footprint_tool self (emits_use_tool lib w tool plan1 query) _ E2)
        as (ev2 & T2 & _ & F2).
    2:{ injection H as <- <-. split; [lia | discriminate]. }
    destruct (run_integration_agent _ _ _ _ _ _ s2) as [s3 [response1|e]] eqn:E3;
      destruct (ticks_run_integration_agent _ _ _ _ E3) as (B3 & X3);
      destruct (footprint_run_integration_agent lib w self _ _ _ _ E3)
        as (ev3 & T3 & _ & F3).
    2:{ injection H as <- <-. split; [lia | discriminate]. }
    destruct (check_response _ _ _ _ _ s3) as [s4 [verdict|e]] eqn:E4;
      destruct (ticks_check_response _ _ _ E4) as (B4 & X4);
      destruct (footprint_check_response lib w self _ _ _ E4)
        as (ev4 & T4 & _ & F4).
    2:{ injection H as <- <-. split; [lia | discriminate]. }
    specialize (X1 _ eq_refl). specialize (X2 _ eq_refl).
    specialize (X3 _ eq_refl). specialize (X4 _ eq_refl).
    apply IH in H; [|cbn [iterations]; lia]. cbn [iterations meets_requirements] in H.
    destruct H as (B5 & R5). split; [lia|].
    intros l' ->. destruct (R5 _ eq_refl) as (X5 & ev5 & T5 & V5). split; [lia|].
    exists (ev1 ++ ev2 ++ ev3 ++ ev4 ++ ev5).
    split; [rewrite T5, T4, T3, T2, T1, <- !app_assoc; reflexivity|].
    right. split; [exact Cm|].
    specialize (F1 _ eq_refl). specialize (F2 _ eq_refl).
    specialize (F3 _ eq_refl). specialize (F4 _ eq_refl).
    cbv beta in F1, F2, F3, F4.
    injection F1 as _ _ _ V1. injection F2 as _ _ _ V2.
    injection F3 as _ _ _ V3. injection F4 as _ _ _ V4.
    rewrite !verdicts_app, V1, V2, V3, V4. cbn [app].
    destruct V5 as [(-> & -> & _) | (Hv & k & ->)].
    + exists 0. reflexivity.
    + cbn [meets_requirements] in Hv. subst verdict. exists (S k). reflexivity.
  - injection H as <- <-. split; [lia|]. intros l' [= <-]. split; [lia|].
    exists []. rewrite app_nil_r. split; [reflexivity|]. left. auto.
Qed.

End Ticks.

(** X18.  However a run of [execute] ends, it has sent at most 35
    requests; a run that completes has sent exactly seven for each round
    of the loop. *)
Theorem execute_requests lib w self arg fuel s s' o :
  execute lib w fuel self arg s = (s', o) ->
  clock s <= clock s' <= clock s + 35 /\
  forall l', o = Return (Some l') ->
    Z.of_nat (clock s') = (Z.of_nat (clock s) + 7 * iterations l')%Z.
Proof.
  intros H. unfold execute, bind, lift in H.
  destruct (stdin w) as [q|e].
  2:{ injection H as <- <-. split; [lia | discriminate]. }
  destruct (WebSearcher_init _ _ _ _ s) as [s1 [tool|e]] eqn:E0;
    apply WebSearcher_init_state in E0 as (_ & C0 & _).
  2:{ injection H as <- <-. split; [lia | discriminate]. }
  apply execute_loop_run in H; [|cbn [iterations]; lia].
  cbn [iterations] in H. destruct H as (B & R). split; [lia|].
  intros l' ->. destruct (R _ eq_refl) as (X & _). lia.
Qed.

Lemma execute_requests_witness :
  let run := execute Demo.lib satisfied_at_once 5 Demo.agent (VInt 5) Demo.start in
  clock Demo.start <= clock (fst run) <= clock Demo.start + 35 /\
  forall l', snd run = Return (Some l') ->
    Z.of_nat (clock (fst run)) = (Z.of_nat (clock Demo.start) + 7 * iterations l')%Z.
Proof.
  intros run.
  apply (@execute_requests Demo.lib satisfied_at_once Demo.agent (VInt 5) 5
           Demo.start (fst run) (snd run)).
  apply surjective_pairing.
Defined.

(** X19.  In a run of [execute] that completes, every verdict of
    [check_response] but the last is false, and the last verdict is the
    value [meets_requirements] has when the loop is left: the loop stops
    at the first true verdict. *)
Theorem execute_stops_at_first_true_verdict lib w self arg fuel s s' l' :
  execute lib w fuel self arg s = (s', Return (Some l')) ->
  exists evs k,
    trace s' = trace s ++ evs /\
    verdicts evs = repeat false k ++ [meets_requirements l'].
Proof.
  intros H. unfold execute, bind, lift in H.
  destruct (stdin w) as [q|e]; [|discriminate].
  destruct (WebSearcher_init _ _ _ _ s) as [s1 [tool|e]] eqn:E0; [|discriminate].
  apply WebSearcher_init_state in E0 as (T0 & _ & _).
  apply execute_loop_run in H; [|cbn [iterations]; lia].
  destruct H as (_ & R). destruct (R _ eq_refl) as (_ & evs & T & V).
  destruct V as [(_ & _ & C) | (_ & k & V)]; [discriminate C|].
  exists evs, k. split; [congruence | exact V].
Qed.

Lemma execute_stops_at_first_true_verdict_witness :
  exists evs k,
    trace (fst (execute Demo.lib
                  (Demo.world (fun i => if Nat.ltb i 2 then "no" else "yes") [])
                  5 Demo.agent (VInt 5) Demo.start))
    = trace Demo.start ++ evs /\
    verdicts evs = repeat false k ++ [true].
Proof.
  apply (@execute_stops_at_first_true_verdict Demo.lib
           (Demo.world (fun i => if Nat.ltb i 2 then "no" else "yes") [])
           Demo.agent (VInt 5) 5 Demo.start _
           {| meets_requirements := true; plan := vstr "look it up";
              outputs := VDict [(vstr "https://example.com/boiling", VStr [])];
              response := vstr "Water boils at 100 C."; iterations := 3 |}).
  vm_compute. reflexivity.
Defined.

(* ================================================================== *)
(** * Edges of the agent and the tool *)
(* ================================================================== *)

Lemma format_not_str lib template kwargs :
  is_str template = false -> format lib template kwargs = Raise AttributeError.
Proof. destruct template; try discriminate; reflexivity. Qed.

(** X20.  An agent whose planning prompt is not text (the constructor's
    default is [None]) cannot complete a run: [execute] ends with an
    exception and without a single request sent; once the query is read
    and the tool is built, the exception is the [AttributeError] of
    [None.format] in the first round. *)
Theorem execute_without_planning_prompt lib w self arg fuel s s' o :
  is_str (planning_agent_prompt self) = false ->
  1 <= fuel ->
  execute lib w fuel self arg s = (s', o) ->
  clock s' = clock s /\
  exists e, o = Raise e /\
    forall q s1 tool,
      stdin w = Return q ->
      WebSearcher_init lib w (model self) (verbose self) s = (s1, Return tool) ->
      e = AttributeError.
Proof.
  intros Hp Hfuel H. destruct fuel as [|fuel]; [lia|].
  unfold execute, bind, lift in H.
  destruct (stdin w) as [q|e].
  2:{ injection H as <- <-. split; [reflexivity|]. exists e.
      split; [reflexivity | discriminate]. }
  destruct (WebSearcher_init _ _ _ _ s) as [s1 [tool|e]] eqn:E0;
    apply WebSearcher_init_state in E0 as (_ & C0 & _).
  2:{ injection H as <- <-. split; [assumption|]. exists e.
      split; [reflexivity | discriminate]. }
  cbn [execute_loop meets_requirements iterations negb andb Z.ltb Z.compare] in H.
  unfold bind at 1 in H. unfold run_planning_agent, bind, enter, log, lift in H.
  rewrite (format_not_str lib _ _ Hp) in H. injection H as <- <-.
  split; [exact C0|]. exists AttributeError. split; reflexivity.
Qed.

Lemma execute_without_planning_prompt_witness :
  let run := execute Demo.lib never_satisfied 5 agent_without_prompts (VInt 5)
               Demo.start in
  clock (fst run) = clock Demo.start /\
  exists e, snd run = Raise e /\
    forall q s1 tool,
      stdin never_satisfied = Return q ->
      WebSearcher_init Demo.lib never_satisfied (model agent_without_prompts)
        (verbose agent_without_prompts) Demo.start = (s1, Return tool) ->
      e = AttributeError.
Proof.
  intros run.
  apply (@execute_without_planning_prompt Demo.lib never_satisfied
           agent_without_prompts (VInt 5) 5 Demo.start (fst run) (snd run)).
  - reflexivity.
  - lia.
  - apply surjective_pairing.
Defined.

(** X21.  [use_tool] builds a new [WebSearcher] at every call and so
    reads the configuration file again: when the file cannot be read, the
    call raises that error and sends nothing. *)
Theorem use_tool_without_config lib w self plan query s e :
  yaml_file w (lit "config.yaml") = Raise e ->
  use_tool lib w self plan query s
  = ({| environ := environ s; clock := clock s;
        trace := trace s ++ [Called use_tool_] |}, Raise e).
Proof.
  intros Hy.
  unfold use_tool, bind, enter, log, WebSearcher_init, load_config, lift.
  unfold bind. rewrite Hy. reflexivity.
Qed.

(** A world whose configuration file is gone. *)
Lemma use_tool_without_config_witness :
  let gone := {| stdin := stdin never_satisfied;
                 yaml_file := fun _ => Raise (OtherError (lit "FileNotFoundError"));
                 http := http never_satisfied |} in
  use_tool Demo.lib gone searcher (vstr "look it up") (vstr "boiling point?")
    (at_request 1)
  = ({| environ := environ (at_request 1); clock := 1; trace := [Called use_tool_] |},
     Raise (OtherError (lit "FileNotFoundError"))).
Proof.
  intros gone.
  apply (@use_tool_without_config Demo.lib gone searcher (vstr "look it up")
           (vstr "boiling point?") (at_request 1)).
  reflexivity.
Defined.

(** X22.  A page address that cannot be a dictionary key (a list or a
    dictionary, which the completion service may put in the
    [best_search_page] field) makes [scrape_website_content] raise
    [TypeError], after the fetch has succeeded as well as after it has
    failed with an exception of [requests]: the error handler builds the
    same dictionary. *)
Theorem scrape_unhashable_address lib w self website_url s :
  hashable website_url = false ->
  (forall e, http w (clock s) (scrape_website_content_request website_url) = Raise e ->
             requests_exception e <> None) ->
  snd (scrape_website_content lib w self website_url s) = Raise TypeError.
Proof.
  intros Hh Hreq.
  unfold scrape_website_content, try_except, bind, enter, log, send,
    raise_for_status, singleton_dict, raise, ret.
  cbn [clock]. rewrite Hh.
  destruct (http w (clock s) (scrape_website_content_request website_url))
    as [r|e] eqn:Ho.
  - destruct (status_error r); reflexivity.
  - specialize (Hreq e eq_refl). destruct e; try reflexivity;
      exfalso; apply Hreq; reflexivity.
Qed.

Lemma scrape_unhashable_address_witness :
  snd (scrape_website_content Demo.lib never_satisfied searcher
         (VList [vstr "https://example.com/a"; vstr "https://example.com/b"])
         (at_request 4))
  = Raise TypeError.
Proof.
  apply (@scrape_unhashable_address Demo.lib never_satisfied searcher
           (VList [vstr "https://example.com/a"; vstr "https://example.com/b"])
           (at_request 4)).
  - reflexivity.
  - intros e H. discriminate H.
Defined.


